(** * kitmap: the keyboard heatmap of the web dashboard

    A shallow embedding of the pure helpers of the heatmap component
    (web/src/components/keyboard-heatmap.tsx):

      - [getKeyCount]   reconciles a layout label with the key names of the
                        recorder (the "resolver" of the specification);
      - [getIntensity]  divides the resolved count by the largest count;
      - [getHeatColor]  maps an intensity to one of sixteen colour classes;
      - the per-key part of [KeyboardHeatmap], which picks the display name.

    and of what stands around it in the dashboard:

      - [formatKeyName] (web/src/lib/format-key-name.ts), the display name
        of a recorded key, a chain of [replaceAll];
      - the data that the charts derive from the snapshot
        (web/src/components/stat-charts.tsx): the bars of [TopCombosChart],
        the hour labels of [HourlyActivityChart], the slices of
        [KeyTypesPieChart] and the bars of [SpecialKeysChart];
      - the three state variables of the root component [App], what
        [fetchStats] does to them and what is rendered from them.  A call of
        [fetchStats] is taken with the outcome of its awaited operations,
        and calls are taken one at a time, each one completing before the
        next starts.

    Left out: the formatting of numbers ([toFixed], [toLocaleString],
    [formatNumber], [formatValue]), which is floating point and depends on
    the locale, the export of the image, and the markup.

    Modelling conventions.

      - A JavaScript string is a sequence of code units; it is modelled by a
        Rocq [string], one character per code unit.  Every label of
        [KEYBOARD_LAYOUT] is ASCII.  The glyphs of [KEY_DISPLAY_NAMES] are
        written as UTF-8 literals; they are only ever compared and tested for
        emptiness.
      - [String.prototype.toUpperCase] and [toLowerCase] are the Unicode case
        mappings of the host.  The resolver is written over an arbitrary pair
        of such mappings (class [CaseMapping]), so what is proved of it holds
        for the real ones; [ascii_case] is the instance that agrees with
        them on ASCII strings and is used to run the examples.
      - [stats.key_frequency_map] is an object used as a dictionary from key
        names to counts: a [gmap string Z] of its own properties.  The names
        an object inherits from [Object.prototype] are left out; no name the
        resolver tries for a label of the layout is one of them
        ([layout_names_not_inherited]).  A count is an integer [number],
        hence [Z]: the type does not exclude negative values, and neither
        does the code.
      - An intensity is the quotient of two integers and is only compared
        with decimal literals of two digits: it is modelled as an exact
        rational [Q], and a literal as its decimal value.  Rounding to a
        double is not modelled; it cannot change the outcome of a comparison
        as long as the counts stay below 2^46, since a quotient [c / m] that
        differs from [p / 100] differs from it by at least [1 / (100 m)]. *)

From Stdlib Require Import ZArith QArith Qminmax Lqa Lia.
From Stdlib Require Import String Ascii List Sorted.
From stdpp Require Import base option list strings gmap fin_maps.
From stdpp Require Import pretty.

Local Open Scope string_scope.
Local Open Scope Z_scope.

(** ** Intensity ladder *)

Module Heat.

(** [a < b] and [a === b] on numbers. *)
Definition ltb (a b : Q) : bool :=
  match Qcompare a b with Lt => true | _ => false end.

Definition eqb (a b : Q) : bool := Qeq_bool a b.

(** function getHeatColor(intensity: number): string *)
Definition getHeatColor (intensity : Q) : string :=
  if eqb intensity 0 then "bg-secondary/50"
  else if ltb intensity 0.04 then "bg-blue-950/80"
  else if ltb intensity 0.08 then "bg-blue-900/80"
  else if ltb intensity 0.13 then "bg-blue-800/80"
  else if ltb intensity 0.19 then "bg-blue-700/80"
  else if ltb intensity 0.26 then "bg-blue-600/80"
  else if ltb intensity 0.34 then "bg-cyan-700/80"
  else if ltb intensity 0.42 then "bg-cyan-500/80"
  else if ltb intensity 0.52 then "bg-green-400/80"
  else if ltb intensity 0.62 then "bg-yellow-400/80"
  else if ltb intensity 0.7 then "bg-yellow-500/90"
  else if ltb intensity 0.77 then "bg-orange-400/90"
  else if ltb intensity 0.84 then "bg-orange-500/90"
  else if ltb intensity 0.9 then "bg-red-400/90"
  else if ltb intensity 0.96 then "bg-red-500/90"
  else "bg-red-700/95".

(** The sixteen classes of the ramp, coldest first: the order of the ladder
    above, which is also the order of the legend below the keyboard. *)
Definition ramp : list string :=
  [ "bg-secondary/50"; "bg-blue-950/80"; "bg-blue-900/80"; "bg-blue-800/80";
    "bg-blue-700/80"; "bg-blue-600/80"; "bg-cyan-700/80"; "bg-cyan-500/80";
    "bg-green-400/80"; "bg-yellow-400/80"; "bg-yellow-500/90";
    "bg-orange-400/90"; "bg-orange-500/90"; "bg-red-400/90"; "bg-red-500/90";
    "bg-red-700/95" ].

(** Position of a class in a list of classes (its length when absent). *)
Fixpoint index_of (s : string) (l : list string) : nat :=
  match l with
  | [] => 0%nat
  | c :: l' => if String.eqb s c then 0%nat else S (index_of s l')
  end.

(** The severity bucket of an intensity: the position in the ramp of the
    class that [getHeatColor] returns. *)
Definition bucket (intensity : Q) : nat := index_of (getHeatColor intensity) ramp.

(** The literals that the ladder compares with, in the order of the tests. *)
Definition thresholds : list Q :=
  [ 0.04; 0.08; 0.13; 0.19; 0.26; 0.34; 0.42; 0.52; 0.62; 0.7; 0.77; 0.84;
    0.9; 0.96 ]%Q.

(** A ladder of [<] tests over a list of thresholds: the number of tests
    that fail before the first one that succeeds. *)
Fixpoint ladder (ts : list Q) (x : Q) : nat :=
  match ts with
  | [] => 0%nat
  | t :: ts' => if ltb x t then 0%nat else S (ladder ts' x)
  end.

(** *** The bands of the specification

    Bucket 0 is the point 0; buckets 1 to 15 are the bands
    (0, 0.04), [0.04, 0.08), ..., [0.9, 0.96), [0.96, 1]. *)

Definition edges : list Q := (0 :: thresholds ++ [1])%Q.

(** Lower and upper edge of the band of bucket [b], for 1 <= b <= 15. *)
Definition lo (b : nat) : Q := nth (b - 1) edges 0%Q.
Definition hi (b : nat) : Q := nth b edges 0%Q.

Definition width (b : nat) : Q := (hi b - lo b)%Q.

(** Bucket [b] claims the intensity [x]. *)
Definition claims (b : nat) (x : Q) : bool :=
  match b with
  | 0%nat => eqb x 0
  | 1%nat => ltb 0 x && ltb x (hi 1)
  | 15%nat => Qle_bool (lo 15) x && Qle_bool x 1
  | _ => Qle_bool (lo b) x && ltb x (hi b)
  end.

End Heat.

(** ** Strings of the host language *)

Module JsString.

(** [s.charAt(i)]: the string made of the code unit at index [i], empty when
    [i] is out of range. *)
Definition charAt (s : string) (i : nat) : string := substring i 1 s.

(** [s.slice(start)], for [0 <= start]: the units from index [start] on. *)
Definition slice (s : string) (start : nat) : string :=
  substring start (String.length s - start) s.

(** The two case mappings of [String.prototype]. *)
Class CaseMapping := {
  toUpperCase : string -> string;
  toLowerCase : string -> string
}.

(** The case mappings on ASCII: [a-z] and [A-Z] are exchanged, every other
    unit is kept. *)
Definition upper_unit (c : ascii) : ascii :=
  let n := N_of_ascii c in
  if (97 <=? n)%N && (n <=? 122)%N then ascii_of_N (n - 32) else c.

Definition lower_unit (c : ascii) : ascii :=
  let n := N_of_ascii c in
  if (65 <=? n)%N && (n <=? 90)%N then ascii_of_N (n + 32) else c.

Fixpoint map_units (f : ascii -> ascii) (s : string) : string :=
  match s with
  | EmptyString => EmptyString
  | String c s' => String (f c) (map_units f s')
  end.

Definition ascii_case : CaseMapping := {|
  toUpperCase := map_units upper_unit;
  toLowerCase := map_units lower_unit
|}.

End JsString.

(** ** Key counts and intensities *)

Module Heatmap.
Import JsString.

(** Of [AllStats] (web/src/types.ts) the heatmap reads one field only. *)
Record AllStats := {
  key_frequency_map : gmap string Z
}.

(** The character of the key right of the brackets. *)
Definition backslash : string := String "092"%char EmptyString.

(** const KEYBOARD_LAYOUT: the rows of the reference keyboard. *)
Definition KEYBOARD_LAYOUT : list (list string) :=
  [ [ "`"; "1"; "2"; "3"; "4"; "5"; "6"; "7"; "8"; "9"; "0"; "-"; "=";
      "Backspace" ];
    [ "Tab"; "q"; "w"; "e"; "r"; "t"; "y"; "u"; "i"; "o"; "p"; "["; "]";
      backslash ];
    [ "CapsLock"; "a"; "s"; "d"; "f"; "g"; "h"; "j"; "k"; "l"; ";"; "'";
      "Return" ];
    [ "ShiftLeft"; "z"; "x"; "c"; "v"; "b"; "n"; "m"; ","; "."; "/";
      "ShiftRight" ];
    [ "ControlLeft"; "MetaLeft"; "Alt"; "Space"; "AltGr"; "MetaRight";
      "ControlRight" ] ].

(** const KEY_DISPLAY_NAMES: Record<string, string> *)
Definition KEY_DISPLAY_NAMES : gmap string string :=
  list_to_map
    [ ("Backspace", "⌫"); ("Tab", "Tab"); ("CapsLock", "Caps");
      ("Return", "⏎"); ("Enter", "⏎"); ("ShiftLeft", "⇧");
      ("ShiftRight", "⇧"); ("ControlLeft", "Ctrl"); ("ControlRight", "Ctrl");
      ("MetaLeft", "⌘"); ("MetaRight", "⌘"); ("Alt", "Alt"); ("AltGr", "Alt");
      ("Space", "Space") ].

(** const KEY_WIDTHS: Record<string, string> *)
Definition KEY_WIDTHS : gmap string string :=
  list_to_map
    [ ("Backspace", "w-20"); ("Tab", "w-16"); ("CapsLock", "w-18");
      ("Return", "w-20"); ("ShiftLeft", "w-24"); ("ShiftRight", "w-28");
      ("Space", "w-64"); ("ControlLeft", "w-16"); ("ControlRight", "w-16");
      ("MetaLeft", "w-14"); ("MetaRight", "w-14"); ("Alt", "w-14");
      ("AltGr", "w-14") ].

(** [a || b] where [a] is a string or [undefined]: [b] when [a] is
    [undefined] or the empty string, [a] otherwise. *)
Definition or_else (a : option string) (b : string) : string :=
  match a with
  | Some (String _ _ as s) => s
  | _ => b
  end.

(** What [KeyboardHeatmap] computes for one key of the layout. *)
Record KeyCell := {
  cell_key : string;
  cell_intensity : Q;
  cell_count : Z;
  cell_displayName : string;
  cell_width : string;
  cell_heat : string;
  cell_tooltip : bool
}.

Section WithCase.
Context {cm : CaseMapping}.

(** function getKeyCount(stats: AllStats, keyName: string): number

    [freq[k] !== undefined] holds exactly when [k] is a property of [freq]. *)
Definition getKeyCount (stats : AllStats) (keyName : string) : Z :=
  let freq := key_frequency_map stats in
  match freq !! keyName with
  | Some v => v
  | None =>
    let upper := toUpperCase keyName in
    let lower := toLowerCase keyName in
    let capitalized :=
      toUpperCase (charAt keyName 0) +:+ toLowerCase (slice keyName 1) in
    match freq !! upper with
    | Some v => v
    | None =>
    match freq !! lower with
    | Some v => v
    | None =>
    match freq !! capitalized with
    | Some v => v
    | None =>
      if (String.length keyName =? 1)%nat then
        let keyVariant := "Key" +:+ upper in
        match freq !! keyVariant with
        | Some v => v
        | None => 0
        end
      else 0
    end end end
  end.

(** [Object.values(o)]: the values of the properties of [o].  Their order is
    irrelevant to what follows. *)
Definition Object_values (o : gmap string Z) : list Z := (map_to_list o).*2.

(** [Math.max(...args, last)] on integers. *)
Definition Math_max (args : list Z) (last : Z) : Z := foldr Z.max last args.

(** const maxCount = Math.max(...Object.values(stats.key_frequency_map), 1) *)
Definition maxCount (stats : AllStats) : Z :=
  Math_max (Object_values (key_frequency_map stats)) 1.

(** function getIntensity(stats: AllStats, keyName: string): number *)
Definition getIntensity (stats : AllStats) (keyName : string) : Q :=
  let count := getKeyCount stats keyName in
  (inject_Z count / inject_Z (maxCount stats))%Q.

(** The body of [row.map((key) => ...)] in [KeyboardHeatmap]: the class
    list gets [width] and [getHeatColor(intensity)], the title gets [count],
    the tooltip is rendered when [count > 0]. *)
Definition renderKey (stats : AllStats) (key : string) : KeyCell :=
  let intensity := getIntensity stats key in
  let count := getKeyCount stats key in
  let displayName := or_else (KEY_DISPLAY_NAMES !! key) (toUpperCase key) in
  let width := or_else (KEY_WIDTHS !! key) "w-12" in
  {| cell_key := key;
     cell_intensity := intensity;
     cell_count := count;
     cell_displayName := displayName;
     cell_width := width;
     cell_heat := Heat.getHeatColor intensity;
     cell_tooltip := 0 <? count |}.

(** export function KeyboardHeatmap({ stats }) *)
Definition KeyboardHeatmap (stats : AllStats) : list (list KeyCell) :=
  map (map (renderKey stats)) KEYBOARD_LAYOUT.

(** *** The resolver as the specification words it

    An ordered list of candidate names, tried in sequence, the first one
    present in the mapping wins, 0 when none is. *)
Definition candidates (label : string) : list string :=
  [ label;
    toUpperCase label;
    toLowerCase label;
    toUpperCase (charAt label 0) +:+ toLowerCase (slice label 1) ]
  ++ (if (String.length label =? 1)%nat
      then [ "Key" +:+ toUpperCase label ] else []).

Fixpoint first_match (freq : gmap string Z) (names : list string) : Z :=
  match names with
  | [] => 0
  | n :: names' =>
      match freq !! n with
      | Some v => v
      | None => first_match freq names'
      end
  end.

End WithCase.

(** The names every object inherits from [Object.prototype]: looking one of
    them up does not give [undefined], whatever the object holds. *)
Definition Object_prototype_names : list string :=
  [ "constructor"; "hasOwnProperty"; "isPrototypeOf"; "propertyIsEnumerable";
    "toLocaleString"; "toString"; "valueOf"; "__proto__";
    "__defineGetter__"; "__defineSetter__"; "__lookupGetter__";
    "__lookupSetter__" ].

Definition inherited (name : string) : bool :=
  existsb (String.eqb name) Object_prototype_names.

(** The snapshot whose frequency mapping is [freq]. *)
Definition stats_of (freq : gmap string Z) : AllStats :=
  {| key_frequency_map := freq |}.

(** The frequency mapping of the specification holds press counts. *)
Definition nonneg_counts (stats : AllStats) : Prop :=
  forall k v, key_frequency_map stats !! k = Some v -> 0 <= v.

(** [z] is the largest value of the mapping, floored at 1. *)
Definition max_floored_at_1 (freq : gmap string Z) (z : Z) : Prop :=
  1 <= z /\
  (forall k v, freq !! k = Some v -> v <= z) /\
  (z = 1 \/ exists k, freq !! k = Some z).

End Heatmap.

(** ** The legend below the keyboard (keyboard-heatmap.tsx, Legend) *)

Module HeatmapLegend.

(** The entries of the legend in the order of the markup: the colour class
    of the swatch and the text beside it. *)
Definition LEGEND : list (string * string) :=
  [ ("bg-secondary/50", "None");
    ("bg-blue-950/80", "Ultra Cold");
    ("bg-blue-900/80", "Ext. Cold");
    ("bg-blue-800/80", "Very Cold");
    ("bg-blue-700/80", "Cold");
    ("bg-blue-600/80", "Semi-Cold");
    ("bg-cyan-700/80", "Cool");
    ("bg-cyan-500/80", "Slightly Cool");
    ("bg-green-400/80", "Neutral");
    ("bg-yellow-400/80", "Warm");
    ("bg-yellow-500/90", "Slightly Warm");
    ("bg-orange-400/90", "Warmer");
    ("bg-orange-500/90", "Hot");
    ("bg-red-400/90", "Very Hot");
    ("bg-red-500/90", "Ext. Hot");
    ("bg-red-700/95", "Extreme") ].

(** An intensity in the band of each bucket, coldest first. *)
Definition band_samples : list Q :=
  [ 0; 0.02; 0.05; 0.1; 0.15; 0.2; 0.3; 0.4; 0.5; 0.6; 0.65; 0.75; 0.8;
    0.85; 0.95; 1 ]%Q.

End HeatmapLegend.

(** ** Display names of recorded keys (web/src/lib/format-key-name.ts) *)

Module FormatKeyName.

(** [s.replaceAll(pat, rep)] for a string pattern and a replacement text
    without [$]: the occurrences of [pat] are found from left to right, each
    search starting after the previous occurrence, and each is replaced by
    [rep].  [skip] counts the units of the current occurrence that are still
    to be passed over.  For the empty pattern [rep] is put before every unit
    and at the end. *)
Fixpoint replaceAll_from (pat rep : string) (skip : nat) (s : string) : string :=
  match s with
  | EmptyString =>
      match skip, pat with
      | O, EmptyString => rep
      | _, _ => EmptyString
      end
  | String c s' =>
      match skip with
      | S k => replaceAll_from pat rep k s'
      | O =>
          if String.prefix pat (String c s') then
            match pat with
            | EmptyString => rep +:+ String c (replaceAll_from pat rep 0 s')
            | String _ pat' =>
                rep +:+ replaceAll_from pat rep (String.length pat') s'
            end
          else String c (replaceAll_from pat rep 0 s')
      end
  end.

Definition replaceAll (s pat rep : string) : string :=
  replaceAll_from pat rep 0 s.

(** export const formatKeyName = (key: string) => ... *)
Definition formatKeyName (key : string) : string :=
  let s := replaceAll key "Key" EmptyString in
  let s := replaceAll s "Left" EmptyString in
  let s := replaceAll s "Right" EmptyString in
  let s := replaceAll s "Control" "Ctrl" in
  let s := replaceAll s "Meta" "Cmd" in
  replaceAll s "Alt" "Option".

(** The unit [c] occurs in [s]. *)
Fixpoint has_unit (c : ascii) (s : string) : bool :=
  match s with
  | EmptyString => false
  | String d s' => Ascii.eqb c d || has_unit c s'
  end.

(** The first units of the six patterns of [formatKeyName]. *)
Definition pattern_initials : list ascii :=
  [ "K"; "L"; "R"; "C"; "M"; "A" ]%char.

(** No unit of [s] starts a pattern. *)
Definition plain (s : string) : bool :=
  forallb (fun c => negb (has_unit c s)) pattern_initials.

End FormatKeyName.

(** ** Data of the charts (web/src/components/stat-charts.tsx) *)

Module Charts.

(** interface ComboStats and HourlyStats (web/src/types.ts); the counts are
    integers. *)
Record ComboStats := {
  combo : string;
  combo_count : Z
}.

Record HourlyStats := {
  hour : Z;
  hour_count : Z
}.

(** The counters of [AllStats] that the pie chart and the special-keys chart
    read. *)
Record KeyCounters := {
  spacebar_count : Z;
  enter_count : Z;
  backspace_count : Z;
  delete_count : Z;
  escape_count : Z;
  tab_count : Z;
  arrow_keys_count : Z;
  modifier_keys_count : Z;
  letter_keys_count : Z;
  number_keys_count : Z;
  special_keys_count : Z
}.

(** const CHART_COLORS *)
Definition CHART_COLORS : list string :=
  [ "var(--chart-1)"; "var(--chart-2)"; "var(--chart-3)"; "var(--chart-4)";
    "var(--chart-5)" ].

(** *** TopCombosChart *)

(** An element of [data] in [TopCombosChart]. *)
Record ComboBar := {
  bar_name : string;
  bar_count : Z;
  bar_fullName : string
}.

(** combo.combo.length > 15 ? combo.combo.substring(0, 15) + '...'
                            : combo.combo *)
Definition combo_name (c : string) : string :=
  if (15 <? String.length c)%nat then substring 0 15 c +:+ "..." else c.

(** const data = stats.top_combos.slice(0, 8).map((combo) => ...) *)
Definition TopCombosChart_data (top_combos : list ComboStats) : list ComboBar :=
  map (fun c => {| bar_name := combo_name (combo c);
                   bar_count := combo_count c;
                   bar_fullName := combo c |})
      (take 8 top_combos).

(** What [TopCombosChart] returns: the notice that nothing was recorded, or
    the bar chart over [data]. *)
Inductive CombosView :=
  | NoCombosRecorded
  | CombosBarChart (data : list ComboBar).

Definition TopCombosChart (top_combos : list ComboStats) : CombosView :=
  let data := TopCombosChart_data top_combos in
  if (length data =? 0)%nat then NoCombosRecorded else CombosBarChart data.

(** *** HourlyActivityChart *)

(** [n.toString()] for an integer [n] of magnitude below 10^21: its decimal
    digits, after a minus sign when it is negative. *)
Definition Number_toString (n : Z) : string := pretty n.

(** The first [n] units of [pad] repeated for ever, [rest] being what is
    left of the current copy. *)
Fixpoint filler (n : nat) (pad rest : string) : string :=
  match n with
  | O => EmptyString
  | S k =>
      match rest with
      | String c r => String c (filler k pad r)
      | EmptyString =>
          match pad with
          | String c r => String c (filler k pad r)
          | EmptyString => EmptyString
          end
      end
  end.

(** [s.padStart(targetLength, padString)] *)
Definition padStart (s : string) (targetLength : nat) (padString : string) : string :=
  let len := String.length s in
  if (targetLength <=? len)%nat then s
  else match padString with
       | EmptyString => s
       | _ => filler (targetLength - len) padString padString +:+ s
       end.

(** `${hour.hour.toString().padStart(2, '0')}:00` *)
Definition hour_label (h : Z) : string :=
  padStart (Number_toString h) 2 "0" +:+ ":00".

Record HourlyPoint := {
  point_hour : string;
  point_count : Z
}.

(** const data = stats.hourly_distribution.map((hour) => ...) *)
Definition HourlyActivityChart_data (hourly_distribution : list HourlyStats)
  : list HourlyPoint :=
  map (fun h => {| point_hour := hour_label (hour h);
                   point_count := hour_count h |})
      hourly_distribution.

(** *** KeyTypesPieChart *)

(** An element of [data]; [slice_color] is [CHART_COLORS[i]], which is
    [undefined] out of range. *)
Record PieSlice := {
  slice_name : string;
  slice_value : Z;
  slice_color : option string
}.

Definition KeyTypesPieChart_data (stats : KeyCounters) : list PieSlice :=
  filter (fun item => 0 < slice_value item)
    [ {| slice_name := "Letters"; slice_value := letter_keys_count stats;
         slice_color := CHART_COLORS !! 0%nat |};
      {| slice_name := "Numbers"; slice_value := number_keys_count stats;
         slice_color := CHART_COLORS !! 2%nat |};
      {| slice_name := "Modifiers"; slice_value := modifier_keys_count stats;
         slice_color := CHART_COLORS !! 3%nat |};
      {| slice_name := "Special"; slice_value := special_keys_count stats;
         slice_color := CHART_COLORS !! 1%nat |} ].

(** *** SpecialKeysChart *)

Record SpecialBar := {
  special_name : string;
  special_count : Z
}.

Definition special_rows (stats : KeyCounters) : list SpecialBar :=
  [ {| special_name := "Spacebar"; special_count := spacebar_count stats |};
    {| special_name := "Enter"; special_count := enter_count stats |};
    {| special_name := "Backspace"; special_count := backspace_count stats |};
    {| special_name := "Tab"; special_count := tab_count stats |};
    {| special_name := "Escape"; special_count := escape_count stats |};
    {| special_name := "Delete"; special_count := delete_count stats |};
    {| special_name := "Arrows"; special_count := arrow_keys_count stats |} ].

(** const data = [ ... ].filter((item) => item.count > 0) *)
Definition SpecialKeysChart_data (stats : KeyCounters) : list SpecialBar :=
  filter (fun item => 0 < special_count item) (special_rows stats).

(** data.map((_, index) => <Cell fill={CHART_COLORS[index %
    CHART_COLORS.length]} />): the fill of each bar. *)
Definition SpecialKeysChart_fills (stats : KeyCounters) : list (option string) :=
  imap (fun index _ => CHART_COLORS !! (index mod length CHART_COLORS)%nat)
       (SpecialKeysChart_data stats).

End Charts.

(** ** Loading the snapshot (the root component [App]) *)

Module App.
Import Heatmap.

(** What a [catch] clause receives: an [Error] object with its message, or
    any other value. *)
Inductive Thrown :=
  | ErrorObject (message : string)
  | OtherValue.

(** How the two awaited operations of [fetchStats] end: [fetch] rejects, the
    response is not ok, [response.json()] rejects, or the body is parsed. *)
Inductive FetchOutcome :=
  | FetchRejected (err : Thrown)
  | ResponseNotOk
  | JsonRejected (err : Thrown)
  | Parsed (data : AllStats).

(** The three state variables of [App]. *)
Record State := {
  stats : option AllStats;
  loading : bool;
  error : option string
}.

(** useState(null), useState(true), useState(null) *)
Definition initial : State :=
  {| stats := None; loading := true; error := None |}.

(** err instanceof Error ? err.message : 'An error occurred' *)
Definition catch_message (err : Thrown) : string :=
  match err with
  | ErrorObject message => message
  | OtherValue => "An error occurred"
  end.

(** [fetchStats] up to its first [await]: setLoading(true); setError(null). *)
Definition fetchStats_start (st : State) : State :=
  {| stats := stats st; loading := true; error := None |}.

(** The [catch] clause: setError(...). *)
Definition catch_clause (err : Thrown) (st : State) : State :=
  {| stats := stats st; loading := loading st;
     error := Some (catch_message err) |}.

(** [fetchStats] from the first [await] on: the rest of the [try] block
    (throw new Error('Failed to fetch stats') when the response is not ok,
    setStats(data) when the body is parsed), the [catch] clause when
    something was thrown, and setLoading(false) in [finally]. *)
Definition fetchStats_settle (outcome : FetchOutcome) (st : State) : State :=
  let st' :=
    match outcome with
    | FetchRejected err => catch_clause err st
    | ResponseNotOk =>
        catch_clause (ErrorObject "Failed to fetch stats") st
    | JsonRejected err => catch_clause err st
    | Parsed data =>
        {| stats := Some data; loading := loading st; error := error st |}
    end in
  {| stats := stats st'; loading := false; error := error st' |}.

(** One call of [fetchStats] that runs to its end. *)
Definition fetchStats (outcome : FetchOutcome) (st : State) : State :=
  fetchStats_settle outcome (fetchStats_start st).

(** The calls of a session, one after the other: the one of [useEffect] on
    mount, then one for each click on Refresh or Retry. *)
Definition session (outcomes : list FetchOutcome) : State :=
  foldl (fun st outcome => fetchStats outcome st) initial outcomes.

(** The data of the last outcome that was parsed, if there is one. *)
Fixpoint last_parsed (outcomes : list FetchOutcome) : option AllStats :=
  match outcomes with
  | [] => None
  | outcome :: rest =>
      match last_parsed rest, outcome with
      | Some data, _ => Some data
      | None, Parsed data => Some data
      | None, _ => None
      end
  end.

(** The message that the [catch] clause stores for an outcome; none when
    nothing is thrown. *)
Definition failure_message (outcome : FetchOutcome) : option string :=
  match outcome with
  | FetchRejected err => Some (catch_message err)
  | ResponseNotOk => Some "Failed to fetch stats"
  | JsonRejected err => Some (catch_message err)
  | Parsed _ => None
  end.

(** What [App] returns. *)
Inductive View :=
  | Spinner
  | ErrorCard (message : string)
  | Blank
  | Dashboard (data : AllStats).

(** if (loading) ...; if (error) ...; if (!stats) return null; ...
    An empty message is falsy. *)
Definition render (st : State) : View :=
  if loading st then Spinner
  else match error st with
       | Some (String _ _ as message) => ErrorCard message
       | _ =>
           match stats st with
           | None => Blank
           | Some data => Dashboard data
           end
       end.

End App.

(** ** Intensity ladder: facts *)

Module HeatFacts.
Import Heat.
Local Open Scope Q_scope.

Lemma ltb_lt (a b : Q) : ltb a b = true <-> a < b.
Proof.
  unfold ltb. rewrite Qlt_alt. destruct (a ?= b); split; congruence.
Qed.

Lemma ltb_ge (a b : Q) : ltb a b = false <-> b <= a.
Proof.
  unfold ltb. rewrite Qge_alt. destruct (a ?= b); split; congruence.
Qed.

Lemma eqb_eq (a b : Q) : eqb a b = true <-> a == b.
Proof. apply Qeq_bool_iff. Qed.

Lemma eqb_neq (a b : Q) : eqb a b = false <-> ~ a == b.
Proof.
  unfold eqb. split.
  - apply Qeq_bool_neq.
  - intros H. destruct (Qeq_bool a b) eqn:E; [|reflexivity].
    apply Qeq_bool_iff in E. contradiction.
Qed.

(** Turn the boolean tests of the context into (in)equalities. *)
Ltac to_prop :=
  repeat match goal with
  | H : ltb _ _ = true |- _ => apply ltb_lt in H
  | H : ltb _ _ = false |- _ => apply ltb_ge in H
  | H : eqb _ _ = true |- _ => apply eqb_eq in H
  | H : eqb _ _ = false |- _ => apply eqb_neq in H
  | H : Qle_bool _ _ = true |- _ => apply Qle_bool_iff in H
  | H : andb _ _ = true |- _ => apply andb_prop in H; destruct H
  end.

(** The class returned by the source is the one the ladder over
    [thresholds] selects. *)
Lemma bucket_ladder (x : Q) :
  bucket x = if eqb x 0 then 0%nat else S (ladder thresholds x).
Proof.
  unfold bucket, getHeatColor, thresholds, ladder.
  destruct (eqb x 0); [reflexivity|].
  repeat match goal with
  | |- context [ltb x ?t] => destruct (ltb x t); [reflexivity|]
  end.
  reflexivity.
Qed.

Lemma getHeatColor_ramp (x : Q) :
  nth_error ramp (bucket x) = Some (getHeatColor x).
Proof.
  unfold bucket, getHeatColor.
  destruct (eqb x 0); [reflexivity|].
  repeat match goal with
  | |- context [ltb x ?t] => destruct (ltb x t); [reflexivity|]
  end.
  reflexivity.
Qed.

Lemma ladder_le_length (ts : list Q) (x : Q) :
  (ladder ts x <= length ts)%nat.
Proof.
  induction ts as [|t ts IH]; simpl; [lia|].
  destruct (ltb x t); lia.
Qed.

(** A ladder is monotone whatever its thresholds are. *)
Lemma ladder_mono (ts : list Q) (x y : Q) :
  x <= y -> (ladder ts x <= ladder ts y)%nat.
Proof.
  intros Hxy. induction ts as [|t ts IH]; simpl; [lia|].
  destruct (ltb x t) eqn:Ex; [lia|].
  destruct (ltb y t) eqn:Ey; [|lia].
  to_prop. lra.
Qed.

Lemma bucket_lt_16 (x : Q) : (bucket x < 16)%nat.
Proof.
  rewrite bucket_ladder. destruct (eqb x 0); [lia|].
  pose proof (ladder_le_length thresholds x) as H.
  change (length thresholds) with 14%nat in H. lia.
Qed.

Lemma bucket_zero_iff (x : Q) : bucket x = 0%nat <-> x == 0.
Proof.
  rewrite bucket_ladder. destruct (eqb x 0) eqn:E; to_prop.
  - tauto.
  - split; [discriminate | contradiction].
Qed.

Lemma bucket_mono (x y : Q) :
  0 <= x -> x <= y -> (bucket x <= bucket y)%nat.
Proof.
  intros H0 Hxy. rewrite !bucket_ladder.
  destruct (eqb x 0) eqn:Ex; [lia|].
  destruct (eqb y 0) eqn:Ey; to_prop.
  - exfalso. apply Ex. lra.
  - apply le_n_S, ladder_mono, Hxy.
Qed.

(** [bucket] does not depend on the representation of the rational. *)
Lemma bucket_ext (x y : Q) : x == y -> bucket x = bucket y.
Proof.
  intros E. rewrite !bucket_ladder.
  assert (L : forall ts, ladder ts x = ladder ts y).
  { induction ts as [|t ts IH]; simpl; [reflexivity|].
    rewrite IH. unfold ltb. now rewrite E. }
  rewrite L. unfold eqb. now rewrite E.
Qed.

(** On [0, 1], bucket [b] claims [x] exactly when the source puts [x] in
    bucket [b]. *)
Lemma claims_bucket (x : Q) (b : nat) :
  0 <= x <= 1 -> (b < 16)%nat -> claims b x = true <-> bucket x = b.
Proof.
  intros Hx Hb.
  assert (Hc : In b (seq 0 16)) by (apply in_seq; lia).
  clear Hb. cbn [seq In] in Hc.
  repeat (destruct Hc as [<-|Hc]); [..|contradiction];
    unfold claims, lo, hi, edges, thresholds;
    cbn [nth Nat.sub app]; unfold bucket, getHeatColor;
    (destruct (eqb x 0) eqn:E0;
     [|repeat match goal with
       | |- context [ltb x ?t] =>
           let E := fresh "E" in destruct (ltb x t) eqn:E
       end]);
    match goal with
    | |- context [index_of ?s ramp] =>
        let v := eval vm_compute in (index_of s ramp) in
        change (index_of s ramp) with v
    end;
    (split; intros H;
     first [ reflexivity | discriminate | exfalso; to_prop; lra
           | repeat (apply andb_true_intro; split); try reflexivity;
             first [apply ltb_lt | apply Qle_bool_iff | apply eqb_eq];
             to_prop; lra ]).
Qed.

Lemma thresholds_ascending : StronglySorted Qlt thresholds.
Proof.
  unfold thresholds.
  repeat (apply SSorted_cons; [|repeat (constructor; [lra|]); constructor]).
  apply SSorted_nil.
Qed.

(** C1. On [0, 1] the mapping from intensity to bucket is a total function
    into the sixteen buckets 0..15: the bucket that the source assigns to [x]
    claims [x], no other bucket does, the bucket does not depend on how the
    number is written, it is non-decreasing in [x], it is 0 exactly when
    [x == 0], and the ladder of the source is the ladder over the ascending
    thresholds 0.04, 0.08, ..., 0.96. *)
Theorem bucket_partition (x : Q) :
  0 <= x <= 1 ->
  (bucket x < 16)%nat /\
  nth_error ramp (bucket x) = Some (getHeatColor x) /\
  claims (bucket x) x = true /\
  (forall b, (b < 16)%nat -> claims b x = true -> b = bucket x) /\
  (forall y, x == y -> bucket y = bucket x) /\
  (forall y, x <= y <= 1 -> (bucket x <= bucket y)%nat) /\
  (bucket x = 0%nat <-> x == 0) /\
  bucket x = (if eqb x 0 then 0%nat else S (ladder thresholds x)) /\
  StronglySorted Qlt thresholds.
Proof.
  intros Hx. pose proof (bucket_lt_16 x) as Hlt.
  split; [assumption|]. split; [apply getHeatColor_ramp|].
  split; [now apply claims_bucket|].
  split; [intros b Hb Hc; symmetry; now apply claims_bucket|].
  split; [intros y E; symmetry; now apply bucket_ext|].
  split; [intros y [Hxy _]; apply bucket_mono; tauto|].
  split; [apply bucket_zero_iff|].
  split; [apply bucket_ladder|apply thresholds_ascending].
Qed.

Lemma bucket_partition_witness :
  0 <= 0.5 <= 1 /\
  claims (bucket 0.5) 0.5 = true /\
  (forall b, (b < 16)%nat -> claims b 0.5 = true -> b = bucket 0.5) /\
  (bucket 0.5 <= bucket 1)%nat.
Proof.
  assert (H : 0 <= 0.5 <= 1) by (unfold Qle; simpl; lia).
  split; [exact H|].
  destruct (bucket_partition 0.5 H) as (_ & _ & Hc & Hu & _ & Hm & _).
  split; [exact Hc|]. split; [exact Hu|].
  apply Hm. unfold Qle; simpl; lia.
Defined.

(** *** Widths of the bands *)

(** The band of bucket [b] is where the source puts [b]: for [x] in [0, 1]
    and [1 <= b <= 15], [x] falls in bucket [b] only between the edges
    [lo b] and [hi b]. *)
Lemma bucket_between_edges (x : Q) (b : nat) :
  0 <= x <= 1 -> (1 <= b <= 15)%nat -> bucket x = b -> lo b <= x <= hi b.
Proof.
  intros Hx Hb E. apply claims_bucket in E; [|assumption|lia].
  assert (Hc : In b (seq 1 15)) by (apply in_seq; lia).
  clear Hb. cbn [seq In] in Hc.
  repeat (destruct Hc as [<-|Hc]); [..|contradiction];
    unfold claims, lo, hi, edges, thresholds in *;
    cbn [nth Nat.sub app] in *; to_prop; lra.
Qed.

(** C5, as stated, fails: the band of bucket 3 is wider than the band of
    bucket 2. *)
Lemma width_rises_at_bucket_3 :
  width 2 == 0.04 /\ width 3 == 0.05 /\
  ~ (forall b, (1 <= b < 15)%nat -> width (S b) <= width b).
Proof.
  split; [reflexivity|]. split; [reflexivity|].
  intros H. specialize (H 2%nat ltac:(lia)).
  revert H. unfold Qle. simpl. lia.
Qed.

(** C5, amended.  The fifteen bands are narrow at both ends and widest in
    the middle: from bucket 1 to bucket 9 the widths do not decrease (0.04
    up to 0.10), from bucket 8 to bucket 15 they do not increase (0.10 down
    to 0.04); the top band is as narrow as the two bottom bands and no band
    is narrower.  Each band is where the source puts its bucket. *)
Theorem width_profile :
  (forall b, (1 <= b < 9)%nat -> width b <= width (S b)) /\
  (forall b, (8 <= b < 15)%nat -> width (S b) <= width b) /\
  Forall2 Qeq (map width (seq 1 15))
    [0.04; 0.04; 0.05; 0.06; 0.07; 0.08; 0.08; 0.10; 0.10; 0.08; 0.07; 0.07;
     0.06; 0.06; 0.04] /\
  (forall b, (1 <= b <= 15)%nat -> width 15 <= width b) /\
  width 1 == width 15 /\
  (forall x b, 0 <= x <= 1 -> (1 <= b <= 15)%nat -> bucket x = b ->
               lo b <= x <= hi b).
Proof.
  assert (cases : forall (P : nat -> Prop) n m,
             Forall P (seq n m) -> forall b, (n <= b < n + m)%nat -> P b).
  { intros P n m HF b Hb. rewrite Forall_forall in HF. apply HF.
    apply list_elem_of_In, in_seq. lia. }
  split; [|split; [|split; [|split; [|split]]]].
  - apply (cases _ 1%nat 8%nat). cbn [seq].
    repeat (constructor; [unfold Qle; simpl; lia|]). constructor.
  - apply (cases _ 8%nat 7%nat). cbn [seq].
    repeat (constructor; [unfold Qle; simpl; lia|]). constructor.
  - cbn [map seq]. repeat (constructor; [reflexivity|]). constructor.
  - intros b Hb. apply (cases (fun b => width 15 <= width b) 1%nat 15%nat); [|lia].
    cbn [seq].
    repeat (constructor; [unfold Qle; simpl; lia|]). constructor.
  - reflexivity.
  - apply bucket_between_edges.
Qed.

Lemma width_profile_witness :
  (8 <= 9 < 15)%nat /\ width 10 <= width 9 /\ width 15 <= width 9.
Proof.
  destruct width_profile as (_ & Hdown & _ & Hmin & _).
  split; [lia|]. split; [apply Hdown; lia | apply Hmin; lia].
Defined.

End HeatFacts.

(** ** Resolver, intensity and display names: facts *)

Module HeatmapFacts.
Import JsString Heatmap.

(** *** Math.max and maxCount *)

Lemma Math_max_ge_last (args : list Z) (last : Z) : last <= Math_max args last.
Proof.
  induction args as [|a args IH]; simpl; lia.
Qed.

Lemma Math_max_ge_arg (args : list Z) (last a : Z) :
  a ∈ args -> a <= Math_max args last.
Proof.
  induction args as [|b args IH]; intros Ha.
  - inversion Ha.
  - apply elem_of_cons in Ha as [->|Ha]; simpl; [lia|].
    specialize (IH Ha). lia.
Qed.

Lemma Math_max_attained (args : list Z) (last : Z) :
  Math_max args last = last \/ Math_max args last ∈ args.
Proof.
  unfold Math_max. induction args as [|b args IH]; simpl; [now left|].
  destruct (Z.max_spec b (foldr Z.max last args)) as [[_ E]|[_ E]];
    rewrite E.
  - destruct IH as [IH|IH]; [now left|right]. now apply list_elem_of_further.
  - right. apply list_elem_of_here.
Qed.

Lemma elem_of_Object_values (o : gmap string Z) (v : Z) :
  v ∈ Object_values o <-> exists k, o !! k = Some v.
Proof.
  unfold Object_values. rewrite list_elem_of_fmap. split.
  - intros [[k v'] [-> Hin]]. exists k. now apply elem_of_map_to_list.
  - intros [k Hk]. exists (k, v). split; [reflexivity|].
    now apply elem_of_map_to_list.
Qed.

Lemma maxCount_spec (stats : AllStats) :
  max_floored_at_1 (key_frequency_map stats) (maxCount stats).
Proof.
  unfold max_floored_at_1, maxCount. split; [|split].
  - apply Math_max_ge_last.
  - intros k v Hk. apply Math_max_ge_arg, elem_of_Object_values. eauto.
  - destruct (Math_max_attained (Object_values (key_frequency_map stats)) 1)
      as [E|E]; [now left|right].
    now apply elem_of_Object_values.
Qed.

(** The floored maximum is unique: [maxCount] is the only number that fits
    the description. *)
Lemma max_floored_at_1_unique (freq : gmap string Z) (z z' : Z) :
  max_floored_at_1 freq z -> max_floored_at_1 freq z' -> z = z'.
Proof.
  intros (H1 & Hub & Hat) (H1' & Hub' & Hat').
  destruct Hat as [->|[k Hk]], Hat' as [->|[k' Hk']]; try reflexivity.
  - apply Hub in Hk'. lia.
  - apply Hub' in Hk. lia.
  - apply Hub' in Hk. apply Hub in Hk'. lia.
Qed.

Section WithCase.
Context {cm : CaseMapping}.

(** *** The resolver *)

Lemma getKeyCount_first_match (stats : AllStats) (label : string) :
  getKeyCount stats label =
  first_match (key_frequency_map stats) (candidates label).
Proof.
  unfold getKeyCount, candidates. cbn [app first_match].
  repeat match goal with
  | |- context [key_frequency_map stats !! ?k] =>
      destruct (key_frequency_map stats !! k); [reflexivity|]
  end.
  destruct (String.length label =? 1)%nat; cbn [first_match]; [|reflexivity].
  destruct (key_frequency_map stats !! _); reflexivity.
Qed.

Lemma first_match_none (freq : gmap string Z) (names : list string) :
  (forall n, n ∈ names -> freq !! n = None) -> first_match freq names = 0.
Proof.
  induction names as [|n names IH]; intros H; simpl; [reflexivity|].
  rewrite (H n) by apply list_elem_of_here.
  apply IH. intros n' Hn'. apply H. now apply list_elem_of_further.
Qed.

Lemma first_match_at (freq : gmap string Z) (names : list string)
    (i : nat) (n : string) (v : Z) :
  names !! i = Some n -> freq !! n = Some v ->
  (forall j n', (j < i)%nat -> names !! j = Some n' -> freq !! n' = None) ->
  first_match freq names = v.
Proof.
  revert i. induction names as [|m names IH]; intros i Hi Hn Hbefore.
  - discriminate.
  - destruct i as [|i]; simpl in *.
    + injection Hi as ->. now rewrite Hn.
    + rewrite (Hbefore 0%nat m) by (reflexivity || lia).
      apply (IH i); [assumption..|].
      intros j n' Hj Hn'. apply (Hbefore (S j) n'); [lia|assumption].
Qed.

(** The result is 0 or a value stored under one of the candidates. *)
Lemma first_match_cases (freq : gmap string Z) (names : list string) :
  first_match freq names = 0 \/
  exists n, n ∈ names /\ freq !! n = Some (first_match freq names).
Proof.
  induction names as [|n names IH]; simpl; [now left|].
  destruct (freq !! n) eqn:E.
  - right. exists n. split; [apply list_elem_of_here|assumption].
  - destruct IH as [IH|(n' & Hin & Hn')]; [now left|right].
    exists n'. split; [now apply list_elem_of_further|assumption].
Qed.

Lemma getKeyCount_cases (stats : AllStats) (label : string) :
  getKeyCount stats label = 0 \/
  exists n, n ∈ candidates label /\
            key_frequency_map stats !! n = Some (getKeyCount stats label).
Proof.
  rewrite getKeyCount_first_match. apply first_match_cases.
Qed.

Lemma getKeyCount_le_maxCount (stats : AllStats) (label : string) :
  getKeyCount stats label <= maxCount stats.
Proof.
  destruct (maxCount_spec stats) as (H1 & Hub & _).
  destruct (getKeyCount_cases stats label) as [->|(n & _ & Hn)]; [lia|].
  now apply Hub in Hn.
Qed.

Lemma getKeyCount_nonneg (stats : AllStats) (label : string) :
  nonneg_counts stats -> 0 <= getKeyCount stats label.
Proof.
  intros Hnn.
  destruct (getKeyCount_cases stats label) as [->|(n & _ & Hn)]; [lia|].
  now apply Hnn in Hn.
Qed.

(** Only the lookups of the names that are tried matter. *)
Lemma first_match_agree (f1 f2 : gmap string Z) (names : list string) :
  (forall n, n ∈ names -> f1 !! n = f2 !! n) ->
  first_match f1 names = first_match f2 names.
Proof.
  induction names as [|n names IH]; intros H; [reflexivity|].
  cbn [first_match]. rewrite (H n) by apply list_elem_of_here.
  rewrite IH; [reflexivity|].
  intros n' Hn'. apply H. now apply list_elem_of_further.
Qed.

Lemma getKeyCount_agree (stats stats' : AllStats) (label : string) :
  (forall n, n ∈ candidates label ->
             key_frequency_map stats' !! n = key_frequency_map stats !! n) ->
  getKeyCount stats' label = getKeyCount stats label.
Proof.
  intros H. rewrite !getKeyCount_first_match. now apply first_match_agree.
Qed.

End WithCase.

(** The model stays within own properties on the layout: with the ASCII case
    mapping, no name tried for a label of the layout is inherited. *)
Lemma layout_names_not_inherited :
  forallb (fun label =>
             forallb (fun name => negb (inherited name))
                     (candidates (cm := ascii_case) label))
          (concat KEYBOARD_LAYOUT) = true.
Proof. reflexivity. Qed.

(** The names tried for two labels of the layout. *)
Example candidates_Space :
  candidates (cm := ascii_case) "Space" = ["Space"; "SPACE"; "space"; "Space"].
Proof. reflexivity. Qed.

Example candidates_a :
  candidates (cm := ascii_case) "a" = ["a"; "A"; "a"; "A"; "KeyA"].
Proof. reflexivity. Qed.

(** A label none of whose spellings was recorded: count 0, first class. *)
Example escape_never_pressed :
  let stats := stats_of {[ "KeyA" := 42; "SPACE" := 200 ]} in
  getKeyCount (cm := ascii_case) stats "Escape" = 0 /\
  Heat.getHeatColor (getIntensity (cm := ascii_case) stats "Escape")
    = "bg-secondary/50".
Proof. split; reflexivity. Qed.

(** A stored value is returned as it is, also when the snapshot breaks the
    contract of press counts. *)
Lemma getKeyCount_negative_entry :
  getKeyCount (cm := ascii_case) (stats_of {[ "a" := -1 ]}) "a" = -1.
Proof. reflexivity. Qed.

(** *** First character and remainder *)

Lemma substring_all (s : string) : substring 0 (String.length s) s = s.
Proof.
  induction s as [|c s IH]; simpl; [reflexivity|]. now rewrite IH.
Qed.

Lemma charAt_0_cons (c : ascii) (s : string) :
  charAt (String c s) 0 = String c EmptyString.
Proof.
  unfold charAt. simpl. now destruct s.
Qed.

Lemma slice_1_cons (c : ascii) (s : string) : slice (String c s) 1 = s.
Proof.
  unfold slice. simpl. rewrite Nat.sub_0_r. apply substring_all.
Qed.

(** C2. [getKeyCount] tries, in this order and with the first name present
    in the mapping winning: the label, its upper-cased form, its lower-cased
    form, its first character upper-cased followed by the remainder
    lower-cased, and, only for a label of length one, "Key" followed by the
    upper-cased label; when none is present the result is 0.  With the label
    "a" and the mapping {"KeyA": 42} the result is 42. *)
Theorem getKeyCount_lookup_order :
  (forall (cm : CaseMapping) (stats : AllStats) (label : string),
     let freq := key_frequency_map stats in
     let names := candidates label in
     names =
       ([ label; toUpperCase label; toLowerCase label;
          toUpperCase (charAt label 0) +:+ toLowerCase (slice label 1) ]
        ++ (if (String.length label =? 1)%nat
            then [ "Key" +:+ toUpperCase label ] else []))%list /\
     (forall c rest, label = String c rest ->
        names !! 3%nat =
          Some (toUpperCase (String c EmptyString) +:+ toLowerCase rest)) /\
     getKeyCount stats label = first_match freq names /\
     (forall i n v,
        names !! i = Some n -> freq !! n = Some v ->
        (forall j n', (j < i)%nat -> names !! j = Some n' ->
                      freq !! n' = None) ->
        getKeyCount stats label = v) /\
     ((forall n, n ∈ names -> freq !! n = None) ->
      getKeyCount stats label = 0)) /\
  getKeyCount (cm := ascii_case) (stats_of {[ "KeyA" := 42 ]}) "a" = 42.
Proof.
  split; [|reflexivity].
  intros cm stats label freq names.
  split; [reflexivity|]. split.
  { intros c rest ->. unfold names, candidates. cbn [app lookup list_lookup].
    now rewrite charAt_0_cons, slice_1_cons. }
  split; [apply getKeyCount_first_match|]. split.
  - intros i n v Hi Hn Hb. rewrite getKeyCount_first_match.
    now apply (first_match_at _ _ i n).
  - intros Hnone. rewrite getKeyCount_first_match.
    now apply first_match_none.
Qed.

Lemma getKeyCount_lookup_order_witness :
  getKeyCount (cm := ascii_case) (stats_of {[ "KeyA" := 42 ]}) "a" = 42 /\
  getKeyCount (cm := ascii_case) (stats_of {[ "B" := 7 ]}) "Tab" = 0.
Proof.
  destruct getKeyCount_lookup_order as [H _]. split.
  - destruct (H ascii_case (stats_of {[ "KeyA" := 42 ]}) "a")
      as (_ & _ & _ & Hat & _).
    apply (Hat 4%nat "KeyA" 42); [reflexivity|reflexivity|].
    intros j n' Hj Hn'.
    do 4 (destruct j as [|j]; [injection Hn' as <-; reflexivity|]). lia.
  - destruct (H ascii_case (stats_of {[ "B" := 7 ]}) "Tab")
      as (_ & _ & _ & _ & Hnone).
    apply Hnone. intros n Hn. cbn in Hn.
    repeat (apply elem_of_cons in Hn as [->|Hn]; [reflexivity|]).
    inversion Hn.
Defined.

(** C6. An entry under exactly the label is the one returned, whatever
    other spellings the mapping has.  With the label "ShiftLeft" and the
    mapping {"ShiftLeft": 10, "shiftleft": 5} the result is 10. *)
Theorem exact_match_wins :
  (forall (cm : CaseMapping) (stats : AllStats) (label : string) (v : Z),
     key_frequency_map stats !! label = Some v ->
     getKeyCount stats label = v) /\
  getKeyCount (cm := ascii_case)
    (stats_of {[ "ShiftLeft" := 10; "shiftleft" := 5 ]}) "ShiftLeft" = 10.
Proof.
  split; [|reflexivity].
  intros cm stats label v Hv. unfold getKeyCount. now rewrite Hv.
Qed.

Lemma exact_match_wins_witness :
  getKeyCount (cm := ascii_case)
    (stats_of {[ "a" := 3; "A" := 4; "KeyA" := 5 ]}) "a" = 3.
Proof.
  apply (proj1 exact_match_wins). reflexivity.
Defined.




(** C8. For a label of length one [getKeyCount] is the first match over
    exactly five names: the label, its upper-cased and lower-cased forms,
    its title-cased form and "Key" followed by the upper-cased label.  The
    entry under the "Key" name is returned when the four names before it are
    absent; the result is 0 when all five are absent; and an entry under any
    other name, whatever its convention, never changes the result.  With the
    label "1": {"Digit1": 5} gives 0, {"Key1": 4} gives 4, and so does
    {"Digit1": 5, "Key1": 4}. *)
Theorem single_character_only_Key_prefix :
  (forall (cm : CaseMapping) (stats : AllStats) (label : string),
     String.length label = 1%nat ->
     let freq := key_frequency_map stats in
     let names :=
       [ label; toUpperCase label; toLowerCase label;
         toUpperCase (charAt label 0) +:+ toLowerCase (slice label 1);
         "Key" +:+ toUpperCase label ] in
     candidates label = names /\
     getKeyCount stats label = first_match freq names /\
     (forall v,
        freq !! label = None -> freq !! toUpperCase label = None ->
        freq !! toLowerCase label = None ->
        freq !! (toUpperCase (charAt label 0)
                 +:+ toLowerCase (slice label 1)) = None ->
        freq !! ("Key" +:+ toUpperCase label) = Some v ->
        getKeyCount stats label = v) /\
     ((forall n, n ∈ names -> freq !! n = None) ->
      getKeyCount stats label = 0) /\
     (forall name v, name ∉ names ->
        getKeyCount (stats_of (<[name := v]> freq)) label
        = getKeyCount stats label)) /\
  getKeyCount (cm := ascii_case) (stats_of {[ "Digit1" := 5 ]}) "1" = 0 /\
  getKeyCount (cm := ascii_case) (stats_of {[ "Key1" := 4 ]}) "1" = 4 /\
  getKeyCount (cm := ascii_case)
    (stats_of {[ "Digit1" := 5; "Key1" := 4 ]}) "1" = 4 /\
  "Key1" ∈ candidates (cm := ascii_case) "1" /\
  "Digit1" ∉ candidates (cm := ascii_case) "1".
Proof.
  split; [|split; [reflexivity|split; [reflexivity|split;
                   [reflexivity|split]]]].
  - intros cm stats label Hlen freq names.
    assert (Hc : candidates label = names)
      by (unfold candidates, names; now rewrite Hlen).
    assert (Hg : getKeyCount stats label = first_match freq names)
      by (rewrite <- Hc; apply getKeyCount_first_match).
    split; [exact Hc|]. split; [exact Hg|]. split; [|split].
    + intros v H1 H2 H3 H4 H5. rewrite Hg. unfold names.
      cbn [first_match]. now rewrite H1, H2, H3, H4, H5.
    + intros Hnone. rewrite Hg. now apply first_match_none.
    + intros name v Hname. apply getKeyCount_agree.
      intros n Hn. rewrite Hc in Hn. cbn [stats_of key_frequency_map].
      apply lookup_insert_ne. intros ->. contradiction.
  - cbn. do 4 apply list_elem_of_further. apply list_elem_of_here.
  - cbn. intros Hin.
    repeat (apply elem_of_cons in Hin as [Hin|Hin]; [discriminate|]).
    inversion Hin.
Qed.

Lemma single_character_only_Key_prefix_witness :
  String.length "1" = 1%nat /\
  getKeyCount (cm := ascii_case)
    (stats_of {[ "Digit1" := 5; "Numpad1" := 9 ]}) "1" = 0 /\
  getKeyCount (cm := ascii_case)
    (stats_of {[ "Digit7" := 5; "Key7" := 3 ]}) "7" = 3.
Proof.
  split; [reflexivity|]. split.
  - destruct (proj1 single_character_only_Key_prefix ascii_case
                (stats_of {[ "Digit1" := 5; "Numpad1" := 9 ]}) "1" eq_refl)
      as (_ & _ & _ & H & _).
    apply H. intros n Hn. cbn in Hn.
    repeat (apply elem_of_cons in Hn as [->|Hn]; [reflexivity|]).
    inversion Hn.
  - destruct (proj1 single_character_only_Key_prefix ascii_case
                (stats_of {[ "Digit7" := 5; "Key7" := 3 ]}) "7" eq_refl)
      as (_ & _ & H & _).
    apply H; reflexivity.
Defined.

(** C9. The tests are on presence, not on the value: an entry under the
    label itself with value 0 is returned and hides every later candidate.
    With the label "a" and the mapping {"a": 0, "KeyA": 100} the result is 0
    (it is 100 once the entry "a" is taken away). *)
Theorem zero_entry_shadows :
  (forall (cm : CaseMapping) (stats : AllStats) (label : string),
     key_frequency_map stats !! label = Some 0 ->
     getKeyCount stats label = 0) /\
  getKeyCount (cm := ascii_case)
    (stats_of {[ "a" := 0; "KeyA" := 100 ]}) "a" = 0 /\
  getKeyCount (cm := ascii_case)
    (stats_of (delete "a" {[ "a" := 0; "KeyA" := 100 ]})) "a" = 100.
Proof.
  split; [|split; reflexivity].
  intros cm stats label H0. unfold getKeyCount. now rewrite H0.
Qed.

Lemma zero_entry_shadows_witness :
  getKeyCount (cm := ascii_case)
    (stats_of {[ "Space" := 0; "SPACE" := 12 ]}) "Space" = 0.
Proof.
  apply (proj1 zero_entry_shadows). reflexivity.
Defined.

(** *** Intensities *)

Section Intensity.
Context {cm : CaseMapping}.
Local Open Scope Q_scope.

Lemma maxCount_pos (stats : AllStats) : 0 < inject_Z (maxCount stats).
Proof.
  destruct (maxCount_spec stats) as (H1 & _).
  change 0 with (inject_Z 0). rewrite <- Zlt_Qlt. lia.
Qed.

Lemma getIntensity_range (stats : AllStats) (label : string) :
  nonneg_counts stats -> 0 <= getIntensity stats label <= 1.
Proof.
  intros Hnn. unfold getIntensity. cbv zeta.
  pose proof (maxCount_pos stats) as Hpos.
  pose proof (getKeyCount_nonneg stats label Hnn) as H0.
  pose proof (getKeyCount_le_maxCount stats label) as Hle.
  split.
  - apply Qle_shift_div_l; [assumption|].
    rewrite Qmult_0_l. change 0 with (inject_Z 0). now rewrite <- Zle_Qle.
  - apply Qle_shift_div_r; [assumption|].
    rewrite Qmult_1_l. now rewrite <- Zle_Qle.
Qed.

Lemma getIntensity_zero (stats : AllStats) (label : string) :
  getKeyCount stats label = 0%Z -> getIntensity stats label == 0.
Proof.
  intros E. unfold getIntensity. cbv zeta. rewrite E.
  unfold Qdiv. apply Qmult_0_l.
Qed.

Lemma getIntensity_one (stats : AllStats) (label : string) :
  maxCount stats = getKeyCount stats label -> getIntensity stats label == 1.
Proof.
  intros E. unfold getIntensity. cbv zeta. rewrite <- E.
  unfold Qdiv. apply Qmult_inv_r.
  pose proof (maxCount_pos stats) as Hpos. intros Hz. rewrite Hz in Hpos.
  now apply Qlt_irrefl in Hpos.
Qed.

Lemma all_zero_count (stats : AllStats) (label : string) :
  (forall k v, key_frequency_map stats !! k = Some v -> v = 0%Z) ->
  getKeyCount stats label = 0%Z.
Proof.
  intros Hz.
  destruct (getKeyCount_cases stats label) as [E|(n & _ & Hn)];
    [assumption|now apply Hz in Hn].
Qed.

End Intensity.

(** C3. The intensity is the resolved count divided by [maxCount], the
    largest value of the mapping floored at 1.  The divisor is never 0, so
    the quotient is a proper one; it lies in [0, 1] when no value of the
    mapping is negative; and when the mapping is empty or holds only zeros
    every key has intensity 0 and bucket 0. *)
Theorem getIntensity_normalised
    (cm : CaseMapping) (stats : AllStats) (label : string) :
  let freq := key_frequency_map stats in
  let count := getKeyCount stats label in
  let intensity := getIntensity stats label in
  max_floored_at_1 freq (maxCount stats) /\
  (forall z, max_floored_at_1 freq z -> z = maxCount stats) /\
  (intensity == inject_Z count / inject_Z (maxCount stats))%Q /\
  (~ inject_Z (maxCount stats) == 0)%Q /\
  (intensity * inject_Z (maxCount stats) == inject_Z count)%Q /\
  (nonneg_counts stats -> (0 <= intensity <= 1)%Q) /\
  ((forall k v, freq !! k = Some v -> v = 0) ->
   (intensity == 0)%Q /\ Heat.bucket intensity = 0%nat) /\
  (freq = ∅ -> (intensity == 0)%Q /\ Heat.bucket intensity = 0%nat).
Proof.
  intros freq count intensity.
  assert (Hnz : (~ inject_Z (maxCount stats) == 0)%Q).
  { pose proof (maxCount_pos stats) as Hpos. intros Hz. rewrite Hz in Hpos.
    now apply Qlt_irrefl in Hpos. }
  assert (Hzero : (forall k v, freq !! k = Some v -> v = 0) ->
                  (intensity == 0)%Q /\ Heat.bucket intensity = 0%nat).
  { intros Hz.
    assert (E : (intensity == 0)%Q)
      by now apply getIntensity_zero, all_zero_count.
    split; [exact E|]. now apply HeatFacts.bucket_zero_iff. }
  split; [apply maxCount_spec|].
  split; [intros z Hz; apply (max_floored_at_1_unique freq);
          [assumption|apply maxCount_spec]|].
  split; [reflexivity|]. split; [exact Hnz|].
  split; [unfold intensity, getIntensity; cbv zeta; unfold Qdiv;
          rewrite <- Qmult_assoc, (Qmult_comm (/ _)), Qmult_inv_r by exact Hnz;
          apply Qmult_1_r|].
  split; [apply getIntensity_range|].
  split; [exact Hzero|].
  intros Hempty. apply Hzero. intros k v. rewrite Hempty, lookup_empty.
  discriminate.
Qed.

Lemma getIntensity_normalised_witness :
  (0 <= getIntensity (cm := ascii_case)
          (stats_of {[ "KeyA" := 3%Z; "KeyB" := 4%Z ]}) "a" <= 1)%Q /\
  Heat.bucket (getIntensity (cm := ascii_case)
                 (stats_of {[ "KeyA" := 0; "KeyB" := 0 ]}) "a") = 0%nat.
Proof.
  split.
  - destruct (getIntensity_normalised ascii_case
                (stats_of {[ "KeyA" := 3; "KeyB" := 4 ]}) "a")
      as (_ & _ & _ & _ & _ & Hrange & _).
    apply Hrange.
    intros k v. unfold stats_of, key_frequency_map. intros Hk.
    apply lookup_insert_Some in Hk as [[_ <-]|[_ Hk]]; [lia|].
    apply lookup_singleton_Some in Hk as [_ <-]. lia.
  - destruct (getIntensity_normalised ascii_case
                (stats_of {[ "KeyA" := 0; "KeyB" := 0 ]}) "a")
      as (_ & _ & _ & _ & _ & _ & Hzero & _).
    apply Hzero.
    intros k v. unfold stats_of, key_frequency_map. intros Hk.
    apply lookup_insert_Some in Hk as [[_ <-]|[_ Hk]]; [reflexivity|].
    now apply lookup_singleton_Some in Hk as [_ <-].
Defined.

(** C4. A key whose resolved count is positive and is the largest value of
    the mapping has intensity 1 and falls in bucket 15 (no assumption on the
    sign of the other values is needed).  With the label "Space" and the
    mapping {"SPACE": 200} the resolved count is 200, the intensity 1 and
    the bucket 15. *)
Theorem busiest_key_top_bucket :
  (forall (cm : CaseMapping) (stats : AllStats) (label : string),
     (forall k v, key_frequency_map stats !! k = Some v ->
                  v <= getKeyCount stats label) ->
     0 < getKeyCount stats label ->
     maxCount stats = getKeyCount stats label /\
     (getIntensity stats label == 1)%Q /\
     Heat.bucket (getIntensity stats label) = 15%nat) /\
  (let stats := stats_of {[ "SPACE" := 200 ]} in
   getKeyCount (cm := ascii_case) stats "Space" = 200 /\
   (getIntensity (cm := ascii_case) stats "Space" == 1)%Q /\
   Heat.bucket (getIntensity (cm := ascii_case) stats "Space") = 15%nat).
Proof.
  split.
  - intros cm stats label Hmax Hpos.
    assert (E : maxCount stats = getKeyCount stats label).
    { destruct (maxCount_spec stats) as (H1 & Hub & Hat).
      pose proof (getKeyCount_le_maxCount stats label) as Hle.
      destruct Hat as [E1|[k Hk]]; [lia|]. apply Hmax in Hk. lia. }
    split; [exact E|].
    pose proof (getIntensity_one stats label E) as E1.
    split; [exact E1|].
    now rewrite (HeatFacts.bucket_ext _ 1 E1).
  - cbv zeta. split; [reflexivity|]. split; reflexivity.
Qed.

Lemma busiest_key_top_bucket_witness :
  Heat.bucket (getIntensity (cm := ascii_case)
                 (stats_of {[ "KeyE" := 90; "KeyZ" := 2 ]}) "e") = 15%nat.
Proof.
  apply (proj1 busiest_key_top_bucket ascii_case).
  - intros k v. unfold stats_of, key_frequency_map. intros Hk.
    change (v <= 90).
    apply lookup_insert_Some in Hk as [[_ <-]|[_ Hk]]; [lia|].
    apply lookup_singleton_Some in Hk as [_ <-]. lia.
  - reflexivity.
Defined.

(** *** Display names *)

Lemma KEY_DISPLAY_NAMES_nonempty (key glyph : string) :
  KEY_DISPLAY_NAMES !! key = Some glyph -> glyph <> EmptyString.
Proof.
  unfold KEY_DISPLAY_NAMES. intros H. apply elem_of_list_to_map_2 in H.
  repeat (apply elem_of_cons in H as [H|H];
          [injection H as -> ->; discriminate|]).
  inversion H.
Qed.

Lemma or_else_nonempty (a b : string) :
  a <> EmptyString -> or_else (Some a) b = a.
Proof. destruct a; [contradiction|reflexivity]. Qed.

Lemma displayName_renderKey {cm : CaseMapping} (stats : AllStats) (key : string) :
  cell_key (renderKey stats key) = key /\
  cell_displayName (renderKey stats key) =
    match KEY_DISPLAY_NAMES !! key with
    | Some glyph => glyph
    | None => toUpperCase key
    end.
Proof.
  split; [reflexivity|]. unfold renderKey. cbn [cell_displayName].
  destruct (KEY_DISPLAY_NAMES !! key) as [glyph|] eqn:E; [|reflexivity].
  apply or_else_nonempty. now apply (KEY_DISPLAY_NAMES_nonempty key).
Qed.

(** C10. The heatmap renders the keys of the layout, row by row, and the
    display name of each rendered key is the entry of [KEY_DISPLAY_NAMES]
    for its label when there is one, and the upper-cased label otherwise. *)
Theorem displayName_from_table (cm : CaseMapping) (stats : AllStats) :
  map (map cell_key) (KeyboardHeatmap stats) = KEYBOARD_LAYOUT /\
  forall row cell,
    In row (KeyboardHeatmap stats) -> In cell row ->
    In (cell_key cell) (concat KEYBOARD_LAYOUT) /\
    cell_displayName cell =
      match KEY_DISPLAY_NAMES !! cell_key cell with
      | Some glyph => glyph
      | None => toUpperCase (cell_key cell)
      end.
Proof.
  unfold KeyboardHeatmap. split.
  - rewrite map_map. rewrite <- (map_id KEYBOARD_LAYOUT) at 2.
    apply map_ext. intros row. rewrite map_map. apply map_id.
  - intros row cell Hrow Hcell.
    apply in_map_iff in Hrow as (keys & <- & Hkeys).
    apply in_map_iff in Hcell as (key & <- & Hkey).
    split; [|apply displayName_renderKey].
    apply in_concat. exists keys. split; assumption.
Qed.

Lemma displayName_from_table_witness :
  cell_displayName
    (renderKey (cm := ascii_case) (stats_of ∅) "Return") = "⏎" /\
  cell_displayName (renderKey (cm := ascii_case) (stats_of ∅) "q") = "Q".
Proof.
  pose proof (proj2 (displayName_from_table ascii_case (stats_of ∅))) as H.
  split.
  - refine (proj2 (H (map (renderKey (stats_of ∅)) (nth 2 KEYBOARD_LAYOUT []))
                     (renderKey (stats_of ∅) "Return") _ _)).
    + cbn. right. right. left. reflexivity.
    + cbn. do 12 right. left. reflexivity.
  - refine (proj2 (H (map (renderKey (stats_of ∅)) (nth 1 KEYBOARD_LAYOUT []))
                     (renderKey (stats_of ∅) "q") _ _)).
    + cbn. right. left. reflexivity.
    + cbn. right. left. reflexivity.
Defined.

End HeatmapFacts.

(** ** Display names of recorded keys: facts *)

Module FormatKeyNameFacts.
Import FormatKeyName.

Lemma append_cons (c : ascii) (a s : string) :
  String c a +:+ s = String c (a +:+ s).
Proof. reflexivity. Qed.

Lemma append_empty_l (s : string) : EmptyString +:+ s = s.
Proof. reflexivity. Qed.

Lemma append_empty_r (s : string) : s +:+ EmptyString = s.
Proof.
  induction s as [|c s IH]; [reflexivity|]. now rewrite append_cons, IH.
Qed.

Lemma prefix_append (pat s : string) : String.prefix pat (pat +:+ s) = true.
Proof.
  induction pat as [|c pat IH]; [now destruct s|].
  rewrite append_cons. cbn [String.prefix].
  destruct (ascii_dec c c); [assumption|contradiction].
Qed.

(** Passing over the units of an occurrence. *)
Lemma replaceAll_from_skip (pat rep a s : string) :
  replaceAll_from pat rep (String.length a) (a +:+ s) =
  replaceAll_from pat rep 0 s.
Proof.
  induction a as [|c a IH]; [reflexivity|].
  rewrite append_cons. cbn [String.length replaceAll_from]. exact IH.
Qed.

(** The two equations of the scan, for a pattern that is not empty: an
    occurrence at the head is replaced and the scan goes on after it; a unit
    where no occurrence starts is kept. *)
Lemma replaceAll_occurrence (p0 : ascii) (pat' rep s : string) :
  replaceAll (String p0 pat' +:+ s) (String p0 pat') rep =
  rep +:+ replaceAll s (String p0 pat') rep.
Proof.
  unfold replaceAll.
  pose proof (prefix_append (String p0 pat') s) as Hp.
  rewrite append_cons in *. cbn [replaceAll_from].
  rewrite Hp. now rewrite replaceAll_from_skip.
Qed.

Lemma replaceAll_keep (pat rep : string) (c : ascii) (s : string) :
  String.prefix pat (String c s) = false ->
  replaceAll (String c s) pat rep = String c (replaceAll s pat rep).
Proof.
  intros Hp. unfold replaceAll. cbn [replaceAll_from]. now rewrite Hp.
Qed.

(** A stretch in which the first unit of the pattern does not occur is
    copied. *)
Lemma replaceAll_no_initial (p0 : ascii) (pat' rep a s : string) :
  has_unit p0 a = false ->
  replaceAll (a +:+ s) (String p0 pat') rep =
  a +:+ replaceAll s (String p0 pat') rep.
Proof.
  induction a as [|c a IH]; intros Ha; [reflexivity|].
  cbn [has_unit] in Ha. apply orb_false_elim in Ha as [Hc Ha].
  rewrite !append_cons, replaceAll_keep.
  - now rewrite IH.
  - cbn [String.prefix]. destruct (ascii_dec p0 c) as [->|]; [|reflexivity].
    now rewrite Ascii.eqb_refl in Hc.
Qed.

Lemma plain_has_unit (a : string) (c : ascii) :
  plain a = true -> In c pattern_initials -> has_unit c a = false.
Proof.
  unfold plain. rewrite forallb_forall. intros H Hc.
  specialize (H c Hc). now apply negb_true_iff in H.
Qed.

(** X1. A stretch without any of the letters K, L, R, C, M, A at the start
    of a key name is kept as it is and the rest of the name is formatted on
    its own; a name without any of these letters is returned unchanged. *)
Theorem formatKeyName_plain (a : string) :
  plain a = true ->
  (forall s, formatKeyName (a +:+ s) = a +:+ formatKeyName s) /\
  formatKeyName a = a.
Proof.
  intros Hp.
  assert (H : forall s, formatKeyName (a +:+ s) = a +:+ formatKeyName s).
  { intros s. unfold formatKeyName. cbv zeta.
    rewrite !replaceAll_no_initial;
      try (apply plain_has_unit; [assumption|cbn; tauto]).
    reflexivity. }
  split; [exact H|].
  rewrite <- (append_empty_r a) at 1. rewrite H.
  change (formatKeyName EmptyString) with EmptyString. apply append_empty_r.
Qed.

Lemma formatKeyName_plain_witness :
  plain "shift+" = true /\
  formatKeyName ("shift+" +:+ "KeyA") = "shift+" +:+ formatKeyName "KeyA" /\
  formatKeyName "shift+" = "shift+".
Proof.
  split; [reflexivity|].
  destruct (formatKeyName_plain "shift+" eq_refl) as [H1 H2].
  split; [apply H1 | exact H2].
Defined.

(** X2. At the start of a key name the words Key, Left and Right are
    dropped and the words Control, Meta and Alt become Ctrl, Cmd and Option;
    in each case the rest of the name is formatted on its own. *)
Theorem formatKeyName_words (s : string) :
  formatKeyName ("Key" +:+ s) = formatKeyName s /\
  formatKeyName ("Left" +:+ s) = formatKeyName s /\
  formatKeyName ("Right" +:+ s) = formatKeyName s /\
  formatKeyName ("Control" +:+ s) = "Ctrl" +:+ formatKeyName s /\
  formatKeyName ("Meta" +:+ s) = "Cmd" +:+ formatKeyName s /\
  formatKeyName ("Alt" +:+ s) = "Option" +:+ formatKeyName s.
Proof.
  unfold formatKeyName. cbv zeta.
  repeat split;
    repeat first
      [ rewrite replaceAll_occurrence
      | rewrite replaceAll_no_initial by reflexivity
      | rewrite append_empty_l ];
    reflexivity.
Qed.

(** X3. Formatting is not idempotent: dropping the occurrences of a word can
    bring a new occurrence together, which a second pass would drop. *)
Theorem formatKeyName_not_idempotent :
  formatKeyName "KKeyey" = "Key" /\
  ~ (forall key, formatKeyName (formatKeyName key) = formatKeyName key).
Proof.
  split; [reflexivity|].
  intros H. specialize (H "KKeyey"). discriminate H.
Qed.

End FormatKeyNameFacts.

(** ** The heatmap: further facts *)

Module HeatmapMore.
Import JsString Heatmap Heat.

Lemma first_match_ext (f1 f2 : gmap string Z) (names : list string) :
  (forall n, n ∈ names -> f1 !! n = f2 !! n) ->
  first_match f1 names = first_match f2 names.
Proof.
  induction names as [|n names IH]; intros H; [reflexivity|].
  cbn [first_match]. rewrite (H n) by apply list_elem_of_here.
  rewrite IH; [reflexivity|].
  intros n' Hn'. apply H. now apply list_elem_of_further.
Qed.

Lemma getHeatColor_none_iff (x : Q) :
  getHeatColor x = "bg-secondary/50" <-> (x == 0)%Q.
Proof.
  unfold getHeatColor. destruct (eqb x 0) eqn:E0.
  - apply HeatFacts.eqb_eq in E0. tauto.
  - apply HeatFacts.eqb_neq in E0.
    repeat match goal with
    | |- context [ltb x ?t] =>
        destruct (ltb x t); [split; [discriminate|contradiction]|]
    end.
    split; [discriminate|contradiction].
Qed.

Lemma getIntensity_zero_iff {cm : CaseMapping} (stats : AllStats) (key : string) :
  (getIntensity stats key == 0)%Q <-> getKeyCount stats key = 0.
Proof.
  split; [|apply HeatmapFacts.getIntensity_zero].
  unfold getIntensity. cbv zeta. intros E.
  pose proof (HeatmapFacts.maxCount_pos stats) as Hpos.
  assert (Hc : (inject_Z (getKeyCount stats key) == 0)%Q).
  { rewrite <- (Qmult_div_r (inject_Z (getKeyCount stats key))
                            (inject_Z (maxCount stats))).
    - rewrite E. apply Qmult_0_r.
    - intros Hz. rewrite Hz in Hpos. now apply Qlt_irrefl in Hpos. }
  change 0%Q with (inject_Z 0) in Hc.
  exact (proj1 (inject_Z_injective _ _) Hc).
Qed.

Lemma getIntensity_sign {cm : CaseMapping} (stats : AllStats) (key : string) :
  getKeyCount stats key < 0 -> (getIntensity stats key < 0)%Q.
Proof.
  intros Hneg. unfold getIntensity. cbv zeta.
  pose proof (HeatmapFacts.maxCount_pos stats) as Hpos.
  apply Qlt_shift_div_r; [assumption|].
  rewrite Qmult_0_l. change 0%Q with (inject_Z 0). now rewrite <- Zlt_Qlt.
Qed.

Lemma getIntensity_mono {cm : CaseMapping} (stats : AllStats) (k1 k2 : string) :
  getKeyCount stats k1 <= getKeyCount stats k2 ->
  (getIntensity stats k1 <= getIntensity stats k2)%Q.
Proof.
  intros Hle. unfold getIntensity. cbv zeta. unfold Qdiv.
  apply Qmult_le_compat_r; [now rewrite <- Zle_Qle|].
  apply Qinv_le_0_compat, Qlt_le_weak, HeatmapFacts.maxCount_pos.
Qed.

Lemma getIntensity_nonneg {cm : CaseMapping} (stats : AllStats) (key : string) :
  0 <= getKeyCount stats key -> (0 <= getIntensity stats key)%Q.
Proof.
  intros H0. unfold getIntensity. cbv zeta.
  apply Qle_shift_div_l; [apply HeatmapFacts.maxCount_pos|].
  rewrite Qmult_0_l. change 0%Q with (inject_Z 0). now rewrite <- Zle_Qle.
Qed.

(** X4. Within one snapshot a key that was pressed at least as often as
    another one, the other count not being negative, has at least its
    intensity and never a colder class. *)
Theorem more_presses_not_colder
    (cm : CaseMapping) (stats : AllStats) (k1 k2 : string) :
  0 <= getKeyCount stats k1 ->
  getKeyCount stats k1 <= getKeyCount stats k2 ->
  (getIntensity stats k1 <= getIntensity stats k2)%Q /\
  (bucket (getIntensity stats k1) <= bucket (getIntensity stats k2))%nat.
Proof.
  intros H0 Hle. pose proof (getIntensity_mono stats k1 k2 Hle) as Hi.
  split; [exact Hi|].
  apply HeatFacts.bucket_mono; [now apply getIntensity_nonneg|exact Hi].
Qed.

Lemma more_presses_not_colder_witness :
  let stats := stats_of {[ "KeyA" := 3; "KeyE" := 40; "SPACE" := 200 ]} in
  (bucket (getIntensity (cm := ascii_case) stats "a")
   <= bucket (getIntensity (cm := ascii_case) stats "e"))%nat.
Proof.
  cbv zeta.
  apply (more_presses_not_colder ascii_case); vm_compute; discriminate.
Defined.

(** X5. A rendered key has the class of no activity exactly when its count
    is 0, and its tooltip exactly when its count is positive; so, for a
    count that is not negative, the tooltip is missing exactly on the keys
    drawn with the class of no activity. *)
Theorem no_activity_class_iff_no_presses
    (cm : CaseMapping) (stats : AllStats) (key : string) :
  let cell := renderKey stats key in
  (cell_heat cell = "bg-secondary/50" <-> cell_count cell = 0) /\
  (cell_tooltip cell = true <-> 0 < cell_count cell) /\
  (0 <= cell_count cell ->
   (cell_tooltip cell = false <-> cell_heat cell = "bg-secondary/50")).
Proof.
  cbv zeta. unfold renderKey. cbn [cell_heat cell_count cell_tooltip].
  assert (Hheat : getHeatColor (getIntensity stats key) = "bg-secondary/50"
                  <-> getKeyCount stats key = 0).
  { rewrite getHeatColor_none_iff. apply getIntensity_zero_iff. }
  split; [exact Hheat|]. split; [apply Z.ltb_lt|].
  intros H0. rewrite Hheat, <- not_true_iff_false, Z.ltb_lt. lia.
Qed.

Lemma no_activity_class_iff_no_presses_witness :
  cell_tooltip (renderKey (cm := ascii_case)
                  (stats_of {[ "KeyA" := 3 ]}) "b") = false.
Proof.
  apply (no_activity_class_iff_no_presses ascii_case
           (stats_of {[ "KeyA" := 3 ]}) "b").
  - vm_compute. discriminate.
  - reflexivity.
Defined.

(** X6. Outside [0, 1] the ladder saturates: every intensity from 0.96 on,
    also above 1, gets the hottest class, and every negative intensity gets
    the coldest blue, not the class of no activity.  A key whose stored count
    is negative is therefore drawn in the coldest blue, without tooltip. *)
Theorem getHeatColor_out_of_range :
  (forall x : Q, (0.96 <= x)%Q -> getHeatColor x = "bg-red-700/95") /\
  (forall x : Q, (x < 0)%Q -> getHeatColor x = "bg-blue-950/80") /\
  (forall (cm : CaseMapping) (stats : AllStats) (key : string),
     getKeyCount stats key < 0 ->
     cell_heat (renderKey stats key) = "bg-blue-950/80" /\
     cell_tooltip (renderKey stats key) = false).
Proof.
  assert (Hneg : forall x : Q, (x < 0)%Q -> getHeatColor x = "bg-blue-950/80").
  { intros x Hx. unfold getHeatColor.
    destruct (eqb x 0) eqn:E0;
      [apply HeatFacts.eqb_eq in E0; rewrite E0 in Hx;
       now apply Qlt_irrefl in Hx|].
    destruct (ltb x 0.04) eqn:E; [reflexivity|].
    apply HeatFacts.ltb_ge in E. lra. }
  split; [|split; [exact Hneg|]].
  - intros x Hx. unfold getHeatColor.
    destruct (eqb x 0) eqn:E0; [apply HeatFacts.eqb_eq in E0; lra|].
    repeat match goal with
    | |- context [ltb x ?t] =>
        let E := fresh "E" in
        destruct (ltb x t) eqn:E; [apply HeatFacts.ltb_lt in E; lra|]
    end.
    reflexivity.
  - intros cm stats key Hc. unfold renderKey. cbn [cell_heat cell_tooltip].
    split; [now apply Hneg, getIntensity_sign|].
    apply Z.ltb_ge. lia.
Qed.

Lemma getHeatColor_out_of_range_witness :
  getHeatColor 1.5 = "bg-red-700/95" /\
  getHeatColor (-0.5) = "bg-blue-950/80" /\
  cell_heat (renderKey (cm := ascii_case)
               (stats_of {[ "KeyA" := -4; "KeyB" := 9 ]}) "a")
    = "bg-blue-950/80".
Proof.
  destruct getHeatColor_out_of_range as (Hhot & Hcold & Hkey).
  split; [apply Hhot; vm_compute; discriminate|].
  split; [apply Hcold; reflexivity|].
  apply (Hkey ascii_case). reflexivity.
Defined.

Lemma Forall_pairs_elim {A : Type} (P : A -> A -> Prop) (l : list A) :
  Forall (fun a => Forall (P a) l) l ->
  forall a b, In a l -> In b l -> P a b.
Proof.
  intros H a b Ha Hb. rewrite Forall_forall in H.
  specialize (H a (proj2 (list_elem_of_In _ _) Ha)).
  rewrite Forall_forall in H. apply H. now apply list_elem_of_In.
Qed.

(** X7. The keys of the layout are pairwise distinct, and with the ASCII
    case mapping two different keys have no candidate name in common: no
    entry of the frequency mapping is counted for two keys of the heatmap. *)
Theorem layout_keys_share_no_name :
  NoDup (concat KEYBOARD_LAYOUT) /\
  forall k1 k2 : string,
    In k1 (concat KEYBOARD_LAYOUT) -> In k2 (concat KEYBOARD_LAYOUT) ->
    k1 <> k2 ->
    forall name, name ∈ candidates (cm := ascii_case) k1 ->
                 name ∉ candidates (cm := ascii_case) k2.
Proof.
  split.
  - apply (bool_decide_eq_true_1 _). vm_compute. reflexivity.
  - intros k1 k2 H1 H2.
    apply (Forall_pairs_elim
             (fun k1 k2 => k1 <> k2 ->
                forall name, name ∈ candidates (cm := ascii_case) k1 ->
                             name ∉ candidates (cm := ascii_case) k2)
             (concat KEYBOARD_LAYOUT)); [|assumption..].
    assert (Hd : Forall (fun k1 =>
                  Forall (fun k2 => k1 = k2 \/
                            Forall (fun name =>
                                      name ∉ candidates (cm := ascii_case) k2)
                                   (candidates (cm := ascii_case) k1))
                         (concat KEYBOARD_LAYOUT))
                (concat KEYBOARD_LAYOUT)).
    { apply (bool_decide_eq_true_1 _). vm_compute. reflexivity. }
    eapply Forall_impl; [exact Hd|]. intros a Ha. cbv beta in Ha.
    eapply Forall_impl; [exact Ha|]. intros b [->|Hb] Hne name Hname;
      [contradiction|].
    rewrite Forall_forall in Hb. now apply Hb.
Qed.

Lemma layout_keys_share_no_name_witness :
  "Alt" ∉ candidates (cm := ascii_case) "AltGr".
Proof.
  apply (proj2 layout_keys_share_no_name "Alt" "AltGr").
  - cbn. do 55 right. left. reflexivity.
  - cbn. do 57 right. left. reflexivity.
  - discriminate.
  - apply list_elem_of_here.
Defined.

Lemma getKeyCount_frame {cm : CaseMapping} (f1 f2 : gmap string Z) (key : string) :
  (forall name, name ∈ candidates key -> f1 !! name = f2 !! name) ->
  getKeyCount (stats_of f1) key = getKeyCount (stats_of f2) key.
Proof.
  intros H. rewrite !HeatmapFacts.getKeyCount_first_match.
  now apply first_match_ext.
Qed.

(** X8. The count of a key depends on the mapping only through the names
    tried for it: recording or forgetting an entry under any other name
    leaves the count unchanged. *)
Theorem getKeyCount_other_entries
    (cm : CaseMapping) (freq : gmap string Z) (key name : string) (v : Z) :
  name ∉ candidates key ->
  getKeyCount (stats_of (<[name := v]> freq)) key
    = getKeyCount (stats_of freq) key /\
  getKeyCount (stats_of (delete name freq)) key
    = getKeyCount (stats_of freq) key.
Proof.
  intros Hname. split; apply getKeyCount_frame; intros n Hn;
    assert (name <> n) by (intros ->; contradiction).
  - now apply lookup_insert_ne.
  - now apply lookup_delete_ne.
Qed.

Lemma getKeyCount_other_entries_witness :
  getKeyCount (cm := ascii_case)
    (stats_of (<["Digit1" := 5]> {[ "Key1" := 2 ]})) "1" = 2.
Proof.
  refine (eq_trans
            (proj1 (getKeyCount_other_entries ascii_case {[ "Key1" := 2 ]}
                      "1" "Digit1" 5 _)) _); [|reflexivity].
  cbn. intros Hin.
  repeat (apply elem_of_cons in Hin as [Hin|Hin]; [discriminate|]).
  inversion Hin.
Defined.

Lemma KEY_WIDTHS_nonempty (key w : string) :
  KEY_WIDTHS !! key = Some w -> w <> EmptyString.
Proof.
  unfold KEY_WIDTHS. intros H. apply elem_of_list_to_map_2 in H.
  repeat (apply elem_of_cons in H as [H|H];
          [injection H as -> ->; discriminate|]).
  inversion H.
Qed.

Lemma KEY_WIDTHS_long_keys (key w : string) :
  KEY_WIDTHS !! key = Some w -> (2 < String.length key)%nat.
Proof.
  unfold KEY_WIDTHS. intros H. apply elem_of_list_to_map_2 in H.
  repeat (apply elem_of_cons in H as [H|H];
          [injection H as -> ->; cbn; lia|]).
  inversion H.
Qed.

(** X9. A rendered key has the width class that [KEY_WIDTHS] gives for its
    label and w-12 when the table has none; a key whose label has one or two
    characters always has w-12. *)
Theorem width_from_table (cm : CaseMapping) (stats : AllStats) (key : string) :
  cell_width (renderKey stats key) =
    match KEY_WIDTHS !! key with
    | Some w => w
    | None => "w-12"
    end /\
  ((String.length key <= 2)%nat -> cell_width (renderKey stats key) = "w-12").
Proof.
  unfold renderKey. cbn [cell_width].
  destruct (KEY_WIDTHS !! key) as [w|] eqn:E.
  - split.
    + apply HeatmapFacts.or_else_nonempty. now apply (KEY_WIDTHS_nonempty key).
    + intros Hlen. apply KEY_WIDTHS_long_keys in E. lia.
  - split; reflexivity.
Qed.

Lemma width_from_table_witness :
  cell_width (renderKey (cm := ascii_case) (stats_of ∅) ";") = "w-12".
Proof.
  apply (width_from_table ascii_case (stats_of ∅) ";"). cbn. lia.
Defined.

Lemma first_match_fmap (f : Z -> Z) (freq : gmap string Z) (names : list string) :
  f 0 = 0 -> first_match (f <$> freq) names = f (first_match freq names).
Proof.
  intros Hf. induction names as [|n names IH]; cbn [first_match];
    [now rewrite Hf|].
  rewrite lookup_fmap. destruct (freq !! n); [reflexivity|exact IH].
Qed.

Lemma getKeyCount_scaled {cm : CaseMapping} (k : Z) (freq : gmap string Z) (key : string) :
  getKeyCount (stats_of (Z.mul k <$> freq)) key =
  k * getKeyCount (stats_of freq) key.
Proof.
  rewrite !HeatmapFacts.getKeyCount_first_match.
  apply (first_match_fmap (Z.mul k)). lia.
Qed.

Lemma maxCount_scaled (k : Z) (freq : gmap string Z) (name : string) :
  1 <= k -> freq !! name = Some (maxCount (stats_of freq)) ->
  maxCount (stats_of (Z.mul k <$> freq)) = k * maxCount (stats_of freq).
Proof.
  intros Hk Hat.
  destruct (HeatmapFacts.maxCount_spec (stats_of freq)) as (H1 & Hub & _).
  pose proof (HeatmapFacts.maxCount_spec (stats_of (Z.mul k <$> freq))) as Hs.
  cbn [stats_of key_frequency_map] in Hs, Hub.
  refine (HeatmapFacts.max_floored_at_1_unique _ _ _ Hs _).
  split; [nia|]. split.
  - intros n v. rewrite lookup_fmap. intros Hv.
    destruct (freq !! n) as [w|] eqn:E; [|discriminate].
    injection Hv as <-. apply (Hub n) in E. nia.
  - right. exists name. rewrite lookup_fmap. now rewrite Hat.
Qed.

(** X10. The intensities depend on the proportions of the press counts
    only: multiplying every count of a mapping without negative values by
    the same factor [k >= 1] changes no intensity, hence no colour. *)
Theorem getIntensity_scale_invariant
    (cm : CaseMapping) (freq : gmap string Z) (k : Z) (key : string) :
  1 <= k ->
  nonneg_counts (stats_of freq) ->
  (getIntensity (stats_of (Z.mul k <$> freq)) key
   == getIntensity (stats_of freq) key)%Q /\
  getHeatColor (getIntensity (stats_of (Z.mul k <$> freq)) key)
  = getHeatColor (getIntensity (stats_of freq) key).
Proof.
  intros Hk Hnn.
  assert (E : (getIntensity (stats_of (Z.mul k <$> freq)) key
               == getIntensity (stats_of freq) key)%Q).
  { destruct (Z.eq_dec (getKeyCount (stats_of freq) key) 0) as [E0|Hne].
    - rewrite !HeatmapFacts.getIntensity_zero; [reflexivity|assumption|].
      rewrite getKeyCount_scaled, E0. lia.
    - pose proof (HeatmapFacts.getKeyCount_nonneg (stats_of freq) key Hnn) as H0.
      destruct (HeatmapFacts.getKeyCount_cases (stats_of freq) key)
        as [E0|(n & _ & Hn)]; [contradiction|].
      destruct (HeatmapFacts.maxCount_spec (stats_of freq)) as (H1 & Hub & Hat).
      assert (Hex : exists name,
                 freq !! name = Some (maxCount (stats_of freq))).
      { destruct Hat as [E1|[name Hname]]; [|now exists name].
        exists n. pose proof (Hub n _ Hn) as Hle.
        cbn [stats_of key_frequency_map] in Hn. rewrite Hn. f_equal. lia. }
      destruct Hex as [name Hname].
      unfold getIntensity. cbv zeta.
      rewrite getKeyCount_scaled, (maxCount_scaled k freq name Hk Hname).
      rewrite !inject_Z_mult.
      pose proof (HeatmapFacts.maxCount_pos (stats_of freq)) as Hpos.
      assert (Hkq : (0 < inject_Z k)%Q)
        by (change 0%Q with (inject_Z 0); rewrite <- Zlt_Qlt; lia).
      field. split; intros Hz.
      + rewrite Hz in Hpos. now apply Qlt_irrefl in Hpos.
      + rewrite Hz in Hkq. now apply Qlt_irrefl in Hkq. }
  split; [exact E|].
  pose proof (HeatFacts.getHeatColor_ramp
                (getIntensity (stats_of (Z.mul k <$> freq)) key)) as R1.
  pose proof (HeatFacts.getHeatColor_ramp
                (getIntensity (stats_of freq) key)) as R2.
  rewrite (HeatFacts.bucket_ext _ _ E) in R1. congruence.
Qed.

Lemma getIntensity_scale_invariant_witness :
  getHeatColor (getIntensity (cm := ascii_case)
                  (stats_of (Z.mul 10 <$> {[ "KeyA" := 3; "KeyB" := 4 ]})) "a")
  = getHeatColor (getIntensity (cm := ascii_case)
                    (stats_of {[ "KeyA" := 3; "KeyB" := 4 ]}) "a").
Proof.
  apply (getIntensity_scale_invariant ascii_case); [lia|].
  intros n v. unfold stats_of, key_frequency_map. intros Hn.
  apply lookup_insert_Some in Hn as [[_ <-]|[_ Hn]]; [lia|].
  apply lookup_singleton_Some in Hn as [_ <-]. lia.
Defined.

Lemma Forall2_In_r {A B : Type} (P : A -> B -> Prop) (l : list A) (k : list B) :
  Forall2 P l k -> forall y, In y k -> exists x, P x y.
Proof.
  induction 1 as [|x y l k Hxy _ IH]; intros z Hz; [contradiction|].
  destruct Hz as [<-|Hz]; [now exists x|now apply IH].
Qed.

(** X18. The legend and the ladder agree: whatever the intensity, also out
    of range, the class of a key is the class of a swatch of the legend, and
    every swatch of the legend is the class of some intensity of [0, 1]; the
    swatches come in the order of the ladder, coldest first, none twice. *)
Theorem legend_matches_ladder :
  (forall x : Q, In (getHeatColor x) (map fst HeatmapLegend.LEGEND)) /\
  (forall class, In class (map fst HeatmapLegend.LEGEND) ->
     exists x : Q, (0 <= x <= 1)%Q /\ getHeatColor x = class) /\
  (forall i class, nth_error (map fst HeatmapLegend.LEGEND) i = Some class ->
     forall x : Q, getHeatColor x = class <-> bucket x = i) /\
  NoDup (map fst HeatmapLegend.LEGEND).
Proof.
  assert (Hnd : NoDup (map fst HeatmapLegend.LEGEND))
    by (apply (bool_decide_eq_true_1 _); vm_compute; reflexivity).
  split; [|split; [|split; [|exact Hnd]]].
  - intros x. change (map fst HeatmapLegend.LEGEND) with ramp.
    eapply nth_error_In, HeatFacts.getHeatColor_ramp.
  - intros class Hin.
    assert (Hs : Forall2 (fun x class =>
                   (0 <= x <= 1)%Q /\ getHeatColor x = class)
                 HeatmapLegend.band_samples (map fst HeatmapLegend.LEGEND)).
    { cbn [map fst HeatmapLegend.LEGEND HeatmapLegend.band_samples].
      repeat (constructor;
        [split; [split; unfold Qle; simpl; lia|reflexivity]|]).
      constructor. }
    exact (Forall2_In_r _ _ _ Hs class Hin).
  - intros i class Hi x. change (map fst HeatmapLegend.LEGEND) with ramp in *.
    pose proof (HeatFacts.getHeatColor_ramp x) as Hx. split.
    + intros E. rewrite E in Hx.
      apply NoDup_ListNoDup in Hnd.
      change (map fst HeatmapLegend.LEGEND) with ramp in Hnd.
      apply (proj1 (NoDup_nth_error ramp) Hnd).
      * apply nth_error_Some. congruence.
      * congruence.
    + intros <-. congruence.
Qed.

Lemma legend_matches_ladder_witness :
  exists x : Q, (0 <= x <= 1)%Q /\ getHeatColor x = "bg-green-400/80".
Proof.
  apply (proj1 (proj2 legend_matches_ladder)). cbn. tauto.
Defined.

End HeatmapMore.

(** ** Data of the charts: facts *)

Module ChartsFacts.
Import Charts.

Lemma length_append (a b : string) :
  String.length (a +:+ b) = (String.length a + String.length b)%nat.
Proof.
  induction a as [|c a IH]; [reflexivity|].
  change (String c a +:+ b) with (String c (a +:+ b)).
  cbn [String.length]. now rewrite IH.
Qed.

Lemma length_substring_0 (n : nat) (s : string) :
  String.length (substring 0 n s) = Nat.min n (String.length s).
Proof.
  revert s. induction n as [|n IH]; intros [|c s]; cbn; try reflexivity.
  now rewrite IH.
Qed.

Lemma prefix_substring_0 (n : nat) (s : string) :
  String.prefix (substring 0 n s) s = true.
Proof.
  revert s. induction n as [|n IH]; intros [|c s]; cbn; try reflexivity.
  destruct (ascii_dec c c); [apply IH|contradiction].
Qed.

(** X11. The name under a bar of the combos chart has at most 18
    characters: a combo of at most 15 characters is shown as it is, a longer
    one as its first 15 characters followed by three dots. *)
Theorem combo_name_bounded (c : string) :
  (String.length (combo_name c) <= 18)%nat /\
  ((String.length c <= 15)%nat -> combo_name c = c) /\
  ((15 < String.length c)%nat ->
   combo_name c = substring 0 15 c +:+ "..." /\
   String.length (combo_name c) = 18%nat /\
   String.length (substring 0 15 c) = 15%nat /\
   String.prefix (substring 0 15 c) c = true).
Proof.
  unfold combo_name.
  destruct (15 <? String.length c)%nat eqn:E.
  - apply Nat.ltb_lt in E.
    assert (L : String.length (substring 0 15 c +:+ "...") = 18%nat).
    { rewrite length_append, length_substring_0. cbn [String.length]. lia. }
    split; [lia|]. split; [lia|]. intros _.
    split; [reflexivity|]. split; [exact L|].
    split; [rewrite length_substring_0; lia|apply prefix_substring_0].
  - apply Nat.ltb_ge in E. split; [lia|]. split; [reflexivity|lia].
Qed.

Lemma combo_name_bounded_witness :
  (15 < String.length "ControlLeft+ShiftLeft+KeyC")%nat /\
  combo_name "ControlLeft+ShiftLeft+KeyC" = "ControlLeft+Shi..." /\
  combo_name "ControlLeft+KeyC" = "ControlLeft+Key...".
Proof.
  split; [cbn; lia|]. split.
  - destruct (combo_name_bounded "ControlLeft+ShiftLeft+KeyC")
      as (_ & _ & H).
    exact (proj1 (H ltac:(cbn; lia))).
  - destruct (combo_name_bounded "ControlLeft+KeyC") as (_ & _ & H).
    exact (proj1 (H ltac:(cbn; lia))).
Defined.

(** X12. The combos chart shows the notice that nothing was recorded
    exactly when the snapshot has no combo; otherwise it shows the first
    eight combos (all of them when there are fewer), in their order, each
    with its count and its full name. *)
Theorem TopCombosChart_bars (top_combos : list ComboStats) :
  (TopCombosChart top_combos = NoCombosRecorded <-> top_combos = []) /\
  (top_combos <> [] ->
   TopCombosChart top_combos = CombosBarChart (TopCombosChart_data top_combos)) /\
  length (TopCombosChart_data top_combos) = Nat.min 8 (length top_combos) /\
  (forall i bar,
     TopCombosChart_data top_combos !! i = Some bar <->
     (i < 8)%nat /\
     exists c, top_combos !! i = Some c /\
               bar = {| bar_name := combo_name (combo c);
                        bar_count := combo_count c;
                        bar_fullName := combo c |}).
Proof.
  assert (Hlen : length (TopCombosChart_data top_combos)
                 = Nat.min 8 (length top_combos)).
  { unfold TopCombosChart_data. now rewrite length_map, length_take. }
  assert (Hview : top_combos <> [] ->
            TopCombosChart top_combos
            = CombosBarChart (TopCombosChart_data top_combos)).
  { intros Hne. unfold TopCombosChart. cbv zeta. rewrite Hlen.
    destruct top_combos; [contradiction|reflexivity]. }
  split; [|split; [exact Hview|split; [exact Hlen|]]].
  - split.
    + intros H. destruct top_combos as [|c l]; [reflexivity|].
      rewrite Hview in H by discriminate. discriminate.
    + now intros ->.
  - intros i bar. unfold TopCombosChart_data.
    change (map ?f ?l) with (f <$> l). rewrite list_lookup_fmap.
    split.
    + intros H. destruct (take 8 top_combos !! i) as [c|] eqn:E;
        [|discriminate].
      apply lookup_take_Some in E as [E Hi]. injection H as <-.
      split; [exact Hi|]. now exists c.
    + intros (Hi & c & Hc & ->). now rewrite lookup_take_lt, Hc.
Qed.

Lemma TopCombosChart_bars_witness :
  TopCombosChart [ {| combo := "ControlLeft+KeyC"; combo_count := 12 |} ]
  = CombosBarChart
      [ {| bar_name := "ControlLeft+Key..."; bar_count := 12;
           bar_fullName := "ControlLeft+KeyC" |} ].
Proof.
  exact (proj1 (proj2 (TopCombosChart_bars
           [ {| combo := "ControlLeft+KeyC"; combo_count := 12 |} ]))
         ltac:(discriminate)).
Defined.

(** The hours of the day. *)
Lemma hour_of_day (h : Z) :
  0 <= h < 24 -> In h (map Z.of_nat (seq 0 24)).
Proof.
  intros Hh. apply in_map_iff. exists (Z.to_nat h).
  split; [lia|]. apply in_seq. lia.
Qed.

(** X13. For the hours of the day, 0 to 23, the label of the hourly chart
    has five characters, two digits followed by ":00", and different hours
    have different labels. *)
Theorem hour_label_of_day (h : Z) :
  0 <= h < 24 ->
  String.length (hour_label h) = 5%nat /\
  substring 2 3 (hour_label h) = ":00" /\
  (h < 10 -> hour_label h = "0" +:+ Number_toString h +:+ ":00") /\
  (10 <= h -> hour_label h = Number_toString h +:+ ":00") /\
  (forall h', 0 <= h' < 24 -> hour_label h = hour_label h' -> h = h').
Proof.
  intros Hh. apply hour_of_day, list_elem_of_In in Hh. revert h Hh.
  assert (Hinj : Forall (fun h => Forall (fun h' =>
                   hour_label h = hour_label h' -> h = h')
                   (map Z.of_nat (seq 0 24))) (map Z.of_nat (seq 0 24))).
  { apply (bool_decide_eq_true_1 _). vm_compute. reflexivity. }
  rewrite Forall_forall in Hinj.
  assert (Hfmt : Forall (fun h =>
                   String.length (hour_label h) = 5%nat /\
                   substring 2 3 (hour_label h) = ":00" /\
                   (h < 10 -> hour_label h = "0" +:+ Number_toString h +:+ ":00") /\
                   (10 <= h -> hour_label h = Number_toString h +:+ ":00"))
                 (map Z.of_nat (seq 0 24))).
  { cbn [seq map].
    repeat (constructor;
            [split; [reflexivity|split; [reflexivity|split; intros Hc;
               first [reflexivity | exfalso; lia]]]|]).
    constructor. }
  rewrite Forall_forall in Hfmt.
  intros h Hin. destruct (Hfmt h Hin) as (H1 & H2 & H3 & H4).
  repeat (split; [assumption|]).
  intros h' Hh'. specialize (Hinj h Hin). rewrite Forall_forall in Hinj.
  apply Hinj. apply list_elem_of_In, hour_of_day, Hh'.
Qed.

Lemma hour_label_of_day_witness :
  0 <= 7 < 24 /\ hour_label 7 = "07:00".
Proof.
  split; [lia|].
  destruct (hour_label_of_day 7 ltac:(lia)) as (_ & _ & H & _).
  exact (H ltac:(lia)).
Defined.

(** X14. The special-keys chart has a bar for exactly the counters that are
    positive, in the fixed order Spacebar, Enter, Backspace, Tab, Escape,
    Delete, Arrows; every bar gets a colour of the palette, the one at its
    position modulo five, never an undefined one. *)
Theorem SpecialKeysChart_bars (stats : KeyCounters) :
  let data := SpecialKeysChart_data stats in
  let fills := SpecialKeysChart_fills stats in
  (forall item, item ∈ data <->
                item ∈ special_rows stats /\ 0 < special_count item) /\
  sublist (special_name <$> data)
    [ "Spacebar"; "Enter"; "Backspace"; "Tab"; "Escape"; "Delete"; "Arrows" ] /\
  (length data <= 7)%nat /\
  length fills = length data /\
  (forall i, (i < length data)%nat ->
     exists colour, fills !! i = Some (Some colour) /\
                    CHART_COLORS !! (i mod 5)%nat = Some colour).
Proof.
  cbv zeta. unfold SpecialKeysChart_fills, SpecialKeysChart_data.
  split; [|split; [|split; [|split]]].
  - intros item. rewrite list_elem_of_filter. tauto.
  - change [ "Spacebar"; "Enter"; "Backspace"; "Tab"; "Escape"; "Delete";
             "Arrows" ] with (special_name <$> special_rows stats).
    apply fmap_sublist, sublist_filter.
  - etransitivity; [apply length_filter|]. reflexivity.
  - apply length_imap.
  - intros i Hi. rewrite list_lookup_imap.
    destruct (lookup_lt_is_Some_2 _ _ Hi) as [item ->]. cbn [fmap option_fmap option_map].
    change (length CHART_COLORS) with 5%nat.
    assert (Hm : (i mod 5 < length CHART_COLORS)%nat)
      by (apply Nat.mod_upper_bound; discriminate).
    destruct (lookup_lt_is_Some_2 _ _ Hm) as [colour Hc].
    exists colour. now rewrite Hc.
Qed.

Lemma SpecialKeysChart_bars_witness :
  let stats := {| spacebar_count := 0; enter_count := 8; backspace_count := 3;
                  delete_count := 0; escape_count := 0; tab_count := 1;
                  arrow_keys_count := 0; modifier_keys_count := 0;
                  letter_keys_count := 0; number_keys_count := 0;
                  special_keys_count := 0 |} in
  exists colour, SpecialKeysChart_fills stats !! 2%nat = Some (Some colour).
Proof.
  cbv zeta.
  destruct (SpecialKeysChart_bars
              {| spacebar_count := 0; enter_count := 8; backspace_count := 3;
                 delete_count := 0; escape_count := 0; tab_count := 1;
                 arrow_keys_count := 0; modifier_keys_count := 0;
                 letter_keys_count := 0; number_keys_count := 0;
                 special_keys_count := 0 |}) as (_ & _ & _ & _ & H).
  destruct (H 2%nat ltac:(vm_compute; lia)) as (colour & Hc & _).
  now exists colour.
Defined.

(** X15. The pie chart has a slice for exactly the key types whose counter
    is positive, in the order Letters, Numbers, Modifiers, Special, and the
    colour of a slice is fixed by its type, whichever other slices are
    shown; it has no slice exactly when no counter is positive. *)
Theorem KeyTypesPieChart_slices (stats : KeyCounters) :
  let data := KeyTypesPieChart_data stats in
  let slice_of name value colour :=
    {| slice_name := name; slice_value := value;
       slice_color := Some colour |} in
  let shown name value colour :=
    if 0 <? value then [slice_of name value colour] else [] in
  data =
    (shown "Letters" (letter_keys_count stats) "var(--chart-1)"
     ++ shown "Numbers" (number_keys_count stats) "var(--chart-3)"
     ++ shown "Modifiers" (modifier_keys_count stats) "var(--chart-4)"
     ++ shown "Special" (special_keys_count stats) "var(--chart-2)")%list /\
  (0 < letter_keys_count stats <->
   slice_of "Letters" (letter_keys_count stats) "var(--chart-1)" ∈ data) /\
  (0 < number_keys_count stats <->
   slice_of "Numbers" (number_keys_count stats) "var(--chart-3)" ∈ data) /\
  (0 < modifier_keys_count stats <->
   slice_of "Modifiers" (modifier_keys_count stats) "var(--chart-4)" ∈ data) /\
  (0 < special_keys_count stats <->
   slice_of "Special" (special_keys_count stats) "var(--chart-2)" ∈ data) /\
  sublist (slice_name <$> data) [ "Letters"; "Numbers"; "Modifiers"; "Special" ] /\
  (forall item, item ∈ data ->
     0 < slice_value item /\
     (slice_name item, slice_value item, slice_color item) ∈
       [ ("Letters", letter_keys_count stats, Some "var(--chart-1)");
         ("Numbers", number_keys_count stats, Some "var(--chart-3)");
         ("Modifiers", modifier_keys_count stats, Some "var(--chart-4)");
         ("Special", special_keys_count stats, Some "var(--chart-2)") ]) /\
  (data = [] <->
   letter_keys_count stats <= 0 /\ number_keys_count stats <= 0 /\
   modifier_keys_count stats <= 0 /\ special_keys_count stats <= 0).
Proof.
  cbv zeta. unfold KeyTypesPieChart_data.
  set (rows := [ _; _; _; _ ]).
  assert (Hmem : forall item, item ∈ filter (fun item => 0 < slice_value item) rows
                              <-> 0 < slice_value item /\ item ∈ rows)
    by (intros item; rewrite list_elem_of_filter; tauto).
  split; [|split; [|split; [|split; [|split; [|split; [|split]]]]]].
  - unfold rows. rewrite !filter_cons, filter_nil. cbn [slice_value].
    repeat case_decide;
      repeat match goal with
      | |- context [0 <? ?v] =>
          let E := fresh "E" in
          destruct (0 <? v) eqn:E;
          [apply Z.ltb_lt in E | apply Z.ltb_ge in E]
      end;
      first [reflexivity | exfalso; lia].
  - rewrite Hmem. cbn [slice_value]. unfold rows. split.
    + intros Hpos. split; [exact Hpos|]. apply list_elem_of_here.
    + tauto.
  - rewrite Hmem. cbn [slice_value]. unfold rows. split.
    + intros Hpos. split; [exact Hpos|].
      apply list_elem_of_further, list_elem_of_here.
    + tauto.
  - rewrite Hmem. cbn [slice_value]. unfold rows. split.
    + intros Hpos. split; [exact Hpos|].
      do 2 apply list_elem_of_further. apply list_elem_of_here.
    + tauto.
  - rewrite Hmem. cbn [slice_value]. unfold rows. split.
    + intros Hpos. split; [exact Hpos|].
      do 3 apply list_elem_of_further. apply list_elem_of_here.
    + tauto.
  - change [ "Letters"; "Numbers"; "Modifiers"; "Special" ]
      with (slice_name <$> rows).
    apply fmap_sublist, sublist_filter.
  - intros item Hin. apply Hmem in Hin as [Hpos Hin].
    split; [exact Hpos|]. unfold rows in Hin.
    repeat (apply elem_of_cons in Hin as [->|Hin];
            [cbn [slice_name slice_value slice_color];
             repeat first [apply list_elem_of_here
                          | apply list_elem_of_further]|]).
    inversion Hin.
  - unfold rows. rewrite !filter_cons, filter_nil.
    cbn [slice_value].
    repeat case_decide; split; intros Hdata;
      first [discriminate | lia | reflexivity].
Qed.

Lemma KeyTypesPieChart_slices_witness :
  let none := {| spacebar_count := 0; enter_count := 0; backspace_count := 0;
                 delete_count := 0; escape_count := 0; tab_count := 0;
                 arrow_keys_count := 0; modifier_keys_count := 0;
                 letter_keys_count := 0; number_keys_count := 0;
                 special_keys_count := 0 |} in
  let some := {| spacebar_count := 0; enter_count := 0; backspace_count := 0;
                 delete_count := 0; escape_count := 0; tab_count := 0;
                 arrow_keys_count := 0; modifier_keys_count := 6;
                 letter_keys_count := 90; number_keys_count := 0;
                 special_keys_count := 4 |} in
  KeyTypesPieChart_data none = [] /\
  {| slice_name := "Special"; slice_value := 4;
     slice_color := Some "var(--chart-2)" |} ∈ KeyTypesPieChart_data some.
Proof.
  cbv zeta. split.
  - apply KeyTypesPieChart_slices. cbn. lia.
  - destruct (KeyTypesPieChart_slices
                {| spacebar_count := 0; enter_count := 0; backspace_count := 0;
                   delete_count := 0; escape_count := 0; tab_count := 0;
                   arrow_keys_count := 0; modifier_keys_count := 6;
                   letter_keys_count := 90; number_keys_count := 0;
                   special_keys_count := 4 |})
      as (_ & _ & _ & _ & H & _).
    apply (proj1 H). cbn. lia.
Defined.

End ChartsFacts.

(** ** Loading the snapshot: facts *)

Module AppFacts.
Import Heatmap App.

Lemma session_snoc (outcomes : list FetchOutcome) (outcome : FetchOutcome) :
  session (outcomes ++ [outcome]) = fetchStats outcome (session outcomes).
Proof. unfold session. now rewrite foldl_app. Qed.

Lemma last_parsed_snoc (outcomes : list FetchOutcome) (outcome : FetchOutcome) :
  last_parsed (outcomes ++ [outcome]) =
  match outcome with
  | Parsed data => Some data
  | _ => last_parsed outcomes
  end.
Proof.
  induction outcomes as [|o outcomes IH]; cbn [app last_parsed].
  - now destruct outcome.
  - rewrite IH. now destruct outcome.
Qed.

Lemma stats_fetchStats (outcome : FetchOutcome) (st : State) :
  stats (fetchStats outcome st) =
  match outcome with
  | Parsed data => Some data
  | _ => stats st
  end.
Proof. now destruct outcome. Qed.

Lemma error_fetchStats (outcome : FetchOutcome) (st : State) :
  error (fetchStats outcome st) = failure_message outcome.
Proof. now destruct outcome. Qed.

Lemma session_stats (outcomes : list FetchOutcome) :
  stats (session outcomes) = last_parsed outcomes.
Proof.
  induction outcomes as [|outcome outcomes IH] using rev_ind; [reflexivity|].
  rewrite session_snoc, last_parsed_snoc, stats_fetchStats, IH.
  reflexivity.
Qed.

(** X16. After any sequence of completed calls of [fetchStats] the stored
    snapshot is the one of the last call whose body was parsed: a failed
    refresh never discards or replaces the data loaded before it.  Once a
    call has completed, [loading] is off; before the first one the spinner
    is shown. *)
Theorem session_keeps_last_parsed (outcomes : list FetchOutcome) :
  stats (session outcomes) = last_parsed outcomes /\
  (outcomes <> [] -> loading (session outcomes) = false) /\
  render (session []) = Spinner.
Proof.
  split; [apply session_stats|]. split; [|reflexivity].
  destruct outcomes as [|outcome outcomes _] using rev_ind; [contradiction|].
  intros _. rewrite session_snoc. now destruct outcome.
Qed.

Lemma session_keeps_last_parsed_witness :
  let first := stats_of {[ "KeyA" := 1 ]} in
  stats (session [Parsed first; ResponseNotOk; FetchRejected OtherValue])
  = Some first /\
  loading (session [Parsed first; ResponseNotOk]) = false.
Proof.
  cbv zeta. split.
  - exact (proj1 (session_keeps_last_parsed
             [Parsed (stats_of {[ "KeyA" := 1 ]}); ResponseNotOk;
              FetchRejected OtherValue])).
  - apply (session_keeps_last_parsed
             [Parsed (stats_of {[ "KeyA" := 1 ]}); ResponseNotOk]).
    discriminate.
Defined.

(** X17. What is on screen after a call has completed: the dashboard of the
    new data when the body was parsed, whatever error was shown before; the
    error card with the stored message when the call failed with a message
    that is not empty, even though data loaded earlier is still stored; and,
    when the message is empty, what was loaded earlier, as if nothing had
    failed.  A response that is not ok gives "Failed to fetch stats", a
    thrown value that is no [Error] gives "An error occurred". *)
Theorem view_after_call (outcomes : list FetchOutcome) (outcome : FetchOutcome) :
  render (session (outcomes ++ [outcome])) =
    match failure_message outcome with
    | Some (String c m) => ErrorCard (String c m)
    | Some EmptyString =>
        match last_parsed outcomes with
        | Some data => Dashboard data
        | None => Blank
        end
    | None =>
        match outcome with
        | Parsed data => Dashboard data
        | _ => Blank
        end
    end /\
  (forall data, outcome = Parsed data ->
                render (session (outcomes ++ [outcome])) = Dashboard data) /\
  (outcome = ResponseNotOk ->
   render (session (outcomes ++ [outcome]))
   = ErrorCard "Failed to fetch stats") /\
  (outcome = FetchRejected OtherValue \/ outcome = JsonRejected OtherValue ->
   render (session (outcomes ++ [outcome])) = ErrorCard "An error occurred").
Proof.
  rewrite session_snoc.
  assert (Hs : stats (session outcomes) = last_parsed outcomes)
    by apply session_stats.
  split; [|split; [|split]].
  - unfold render.
    replace (loading (fetchStats outcome (session outcomes))) with false
      by now destruct outcome.
    rewrite error_fetchStats, stats_fetchStats, Hs.
    destruct outcome as [err| |err|data]; cbn [failure_message];
      try destruct (catch_message err); reflexivity.
  - now intros data ->.
  - now intros ->.
  - now intros [-> | ->].
Qed.

Lemma view_after_call_witness :
  let first := stats_of {[ "KeyA" := 1 ]} in
  render (session ([Parsed first] ++ [ResponseNotOk]))
  = ErrorCard "Failed to fetch stats" /\
  render (session ([Parsed first; ResponseNotOk] ++ [Parsed first]))
  = Dashboard first.
Proof.
  cbv zeta. split.
  - apply (view_after_call [Parsed (stats_of {[ "KeyA" := 1 ]})] ResponseNotOk).
    reflexivity.
  - apply (proj1 (proj2 (view_after_call
             [Parsed (stats_of {[ "KeyA" := 1 ]}); ResponseNotOk]
             (Parsed (stats_of {[ "KeyA" := 1 ]})))) _ eq_refl).
Defined.

End AppFacts.
